(** * LMT01 pulse-count temperature sensor driver (lmt01.c / lmt01.h)

    A shallow embedding of the driver and the properties of its
    conversion and acquisition routines.

    Numbers.  [uint32_t] and [int16_t] values are integers of [Z]; the
    wrap of a conversion to [uint32_t] is written out ([uint32]).  C's
    [double] and [float] are IEEE 754 binary64 and binary32, modelled by
    the Standard Library's executable specification [SpecFloat]
    (round to nearest, ties to even), so that every arithmetic step of
    the source rounds as the hardware does.

    Effects.  The timer callbacks act on an abstract [world]; the driver
    threads it through a small state-and-failure monad.  Undefined
    behaviour (a read outside [lut], a call through a null pointer) is an
    outcome of its own, as is a loop that is still spinning when the
    iteration budget of the model runs out. *)

From Stdlib Require Import ZArith QArith Qabs Qpower List Bool Lia.
From Stdlib Require Import SpecFloat.
Import ListNotations.

Local Open Scope Z_scope.

(** ** Machine integers *)

Definition uint32 (z : Z) : Z := z mod 2 ^ 32.

(** ** IEEE 754 arithmetic: [double] (binary64) and [float] (binary32) *)

Module Double.
Definition prec : Z := 53.
Definition emax : Z := 1024.
Definition of_Z (z : Z) : spec_float := binary_normalize prec emax z 0 false.
Definition add : spec_float -> spec_float -> spec_float := SFadd prec emax.
Definition sub : spec_float -> spec_float -> spec_float := SFsub prec emax.
Definition mul : spec_float -> spec_float -> spec_float := SFmul prec emax.
Definition div : spec_float -> spec_float -> spec_float := SFdiv prec emax.
End Double.

Module Single.
Definition prec : Z := 24.
Definition emax : Z := 128.
Definition of_Z (z : Z) : spec_float := binary_normalize prec emax z 0 false.
(** The conversion [double -> float] of an assignment or a [return]. *)
Definition of_double (d : spec_float) : spec_float :=
  match d with
  | S754_finite s m e => binary_round prec emax s m e
  | _ => d
  end.
End Single.

(** The rational number a finite floating-point datum stands for. *)
Definition SF2Q (f : spec_float) : Q :=
  match f with
  | S754_finite s m e => inject_Z (cond_Zopp s (Zpos m)) * (2 ^ e)%Q
  | _ => 0
  end.

Definition is_finite (f : spec_float) : bool :=
  match f with
  | S754_finite _ _ _ | S754_zero _ => true
  | _ => false
  end.

(** The datum of sign [s] and value [q * 2^e] in a format of [prec]
    bits, for [q] of at most [prec] bits: the mantissa is [q] shifted to
    the full width. *)
Definition dyadic (prec : Z) (s : bool) (q : positive) (e : Z) : spec_float :=
  let j := prec - Zpos (digits2_pos q) in
  S754_finite s (Z.to_pos (Zpos q * 2 ^ j)) (e - j).

(** ** Outcomes *)

Inductive undefined_behaviour : Type :=
  | OutOfBounds      (* a read outside the [lut] array *)
  | NullPointer      (* a dereference of, or a call through, a null pointer *)
  | Uninitialised.   (* a read of an indeterminate automatic variable *)

Inductive outcome (A : Type) : Type :=
  | Ret (a : A)
  | Undefined (u : undefined_behaviour)
  | Spinning.        (* the loop had not finished when the budget ran out *)

Arguments Ret {A} a.
Arguments Undefined {A} u.
Arguments Spinning {A}.

Definition bind {A B : Type} (c : outcome A) (k : A -> outcome B) : outcome B :=
  match c with
  | Ret a => k a
  | Undefined u => Undefined u
  | Spinning => Spinning
  end.

Declare Scope outcome_scope.
Delimit Scope outcome_scope with outcome.
Notation "x <- c ;; k" := (bind c (fun x => k))
  (at level 61, c at next level, right associativity) : outcome_scope.
Notation "' pat <- c ;; k" := (bind c (fun x => let 'pat := x in k))
  (at level 61, pat pattern, c at next level, right associativity) : outcome_scope.
Local Open Scope outcome_scope.

(** ** lmt01.h: enumerations *)

(** [lmt_conv_t] is a C enumeration: an integer type, of which the two
    enumerators are only two values. *)
Definition lmt_conv_t : Type := Z.
Definition CONV_TYPE_EQU : lmt_conv_t := 0.
Definition CONV_TYPE_LUT : lmt_conv_t := 1.

Inductive lmt_status_t : Type :=
  | LMT_OK
  | LMT_E_NULL_PTR
  | LMT_E_DEV_NOT_FOUND
  | LMT_E_TIMEOUT.

Definition lmt_status_eqb (a b : lmt_status_t) : bool :=
  match a, b with
  | LMT_OK, LMT_OK
  | LMT_E_NULL_PTR, LMT_E_NULL_PTR
  | LMT_E_DEV_NOT_FOUND, LMT_E_DEV_NOT_FOUND
  | LMT_E_TIMEOUT, LMT_E_TIMEOUT => true
  | _, _ => false
  end.

(** ** lmt01.c: the look-up table

    [static const int16_t lut[21][2]]: row [i] is
    [{temperature in degrees C, pulses}]. *)
Definition lut : list (Z * Z) :=
  [ (-50, 26); (-40, 181); (-30, 338); (-20, 494); (-10, 651);
    (0, 808); (10, 966); (20, 1125); (30, 1284); (40, 1443);
    (50, 1602); (60, 1762); (70, 1923); (80, 2084); (90, 2245);
    (100, 2407); (110, 2569); (120, 2731); (130, 2893); (140, 3057);
    (150, 3218) ].

(** [LEN(lut)] *)
Definition LEN_lut : nat := length lut.

(** [lut[i][j]]: defined for the rows of the array only. *)
Definition lut_at (i : nat) (j : nat) : outcome Z :=
  match nth_error lut i, j with
  | Some (t, _), O => Ret t
  | Some (_, p), S O => Ret p
  | _, _ => Undefined OutOfBounds
  end.

(** ** lmt01.c: [map] *)
Definition map (val in_min in_max out_min out_max : spec_float) : spec_float :=
  Double.add
    (Double.div (Double.mul (Double.sub val in_min) (Double.sub out_max out_min))
                (Double.sub in_max in_min))
    out_min.

(** ** lmt01.c: [lmt_pulses_to_temperature] *)

(** The [for] loop of the table branch, from index [i] with [n]
    iterations left before [i < LEN(lut)] fails; it yields the value of
    [i] after the loop.  [&&] reads [lut[i + 1][1]] only when its left
    operand holds.  The [int16_t] operands are converted to [uint32_t]
    for the comparisons. *)
Fixpoint lut_scan (n : nat) (i : nat) (pulses : Z) : outcome nat :=
  match n with
  | O => Ret i
  | S n' =>
      lo <- lut_at i 1 ;;
      if pulses >=? uint32 lo then
        hi <- lut_at (i + 1) 1 ;;
        if pulses <=? uint32 hi then Ret i
        else lut_scan n' (S i) pulses
      else lut_scan n' (S i) pulses
  end.

Definition lmt_pulses_to_temperature (pulses : Z) (type : lmt_conv_t)
  : outcome spec_float :=
  if pulses =? 0 then Ret (Single.of_Z (-1))
  else if type =? CONV_TYPE_EQU then
    Ret (Single.of_double
           (Double.sub
              (Double.mul (Double.div (Double.of_Z pulses) (Double.of_Z 4096))
                          (Double.of_Z 256))
              (Double.of_Z 50)))
  else if type =? CONV_TYPE_LUT then
    i <- lut_scan LEN_lut 0 pulses ;;
    in_min <- lut_at i 1 ;;
    in_max <- lut_at (i + 1) 1 ;;
    out_min <- lut_at i 0 ;;
    out_max <- lut_at (i + 1) 0 ;;
    Ret (Single.of_double
           (map (Double.of_Z pulses) (Double.of_Z in_min) (Double.of_Z in_max)
                (Double.of_Z out_min) (Double.of_Z out_max)))
  else Ret (Single.of_double (S754_zero false)).

(** The [double] expression of the equation branch, before it is
    converted to [float]. *)
Definition equation_double (pulses : Z) : spec_float :=
  Double.sub
    (Double.mul (Double.div (Double.of_Z pulses) (Double.of_Z 4096))
                (Double.of_Z 256))
    (Double.of_Z 50).

(** ** lmt01.h: the device structure, and the routines that drive it

    The five callbacks are function pointers, hence possibly null; they
    act on the state [world] of the hardware.  ([lmt01.c] calls
    [set_timer_cnt] with the new count and takes the count as the value
    of [get_timer_cnt]; the embedding follows those calls.) *)
Section Driver.
Variable world : Type.

Record lmt01_dev : Type := {
  timer : Z;
  start_timer : option (Z -> world -> world);
  stop_timer : option (Z -> world -> world);
  set_timer_cnt : option (Z -> Z -> world -> world);
  get_timer_cnt : option (Z -> world -> Z * world);
  delay_ms : option (Z -> world -> world)
}.

Definition is_null {A : Type} (p : option A) : bool :=
  match p with None => true | Some _ => false end.

(** The callee behind a function pointer. *)
Definition callee {F : Type} (f : option F) : outcome F :=
  match f with
  | Some g => Ret g
  | None => Undefined NullPointer
  end.

(** [null_ptr_check] *)
Definition null_ptr_check (dev : option lmt01_dev) : lmt_status_t :=
  match dev with
  | None => LMT_E_NULL_PTR
  | Some d =>
      if is_null (start_timer d) || is_null (stop_timer d)
         || is_null (set_timer_cnt d) || is_null (get_timer_cnt d)
         || is_null (delay_ms d)
      then LMT_E_NULL_PTR
      else LMT_OK
  end.

(** [count_pulses_ms] *)
Definition count_pulses_ms (dev : lmt01_dev) (period : Z) (w : world)
  : outcome (Z * world) :=
  stop <- callee (stop_timer dev) ;;
  let w := stop (timer dev) w in
  set <- callee (set_timer_cnt dev) ;;
  let w := set (timer dev) 0 w in
  start <- callee (start_timer dev) ;;
  let w := start (timer dev) w in
  delay <- callee (delay_ms dev) ;;
  let w := delay period w in
  stop <- callee (stop_timer dev) ;;
  let w := stop (timer dev) w in
  get <- callee (get_timer_cnt dev) ;;
  let '(cnt, w) := get (timer dev) w in
  Ret (uint32 cnt, w).

(** [lmt_init] *)
Definition lmt_init (dev : option lmt01_dev) (w : world)
  : outcome (lmt_status_t * world) :=
  if negb (lmt_status_eqb (null_ptr_check dev) LMT_OK) then
    Ret (LMT_E_NULL_PTR, w)
  else
    d <- callee dev ;;
    '(pulses, w) <- count_pulses_ms d 60 w ;;
    if pulses =? 0 then Ret (LMT_E_DEV_NOT_FOUND, w)
    else Ret (LMT_OK, w).

(** [while(count_pulses_ms(dev, 10) != 0);] with at most [fuel]
    evaluations of its condition. *)
Fixpoint drain (fuel : nat) (dev : lmt01_dev) (w : world) : outcome world :=
  match fuel with
  | O => Spinning
  | S fuel' =>
      '(cnt, w) <- count_pulses_ms dev 10 w ;;
      if negb (cnt =? 0) then drain fuel' dev w else Ret w
  end.

(** [lmt_get_pulse_count].  [pulses] is the content of the caller's
    variable behind the pointer ([None]: indeterminate); the content
    after the call is returned with the status. *)
Definition lmt_get_pulse_count (fuel : nat) (dev : option lmt01_dev)
    (pulses : option Z) (w : world)
  : outcome (lmt_status_t * option Z * world) :=
  if negb (lmt_status_eqb (null_ptr_check dev) LMT_OK) then
    Ret (LMT_E_NULL_PTR, pulses, w)
  else
    d <- callee dev ;;
    w <- drain fuel d w ;;
    '(pulse_count, w) <- count_pulses_ms d 104 w ;;
    if pulse_count =? 0 then Ret (LMT_E_DEV_NOT_FOUND, pulses, w)
    else Ret (LMT_OK, Some pulse_count, w).

(** [lmt_get_temperature].  [temp] is the content of the caller's
    [float] behind the pointer. *)
Definition lmt_get_temperature (fuel : nat) (dev : option lmt01_dev)
    (temp : option spec_float) (type : lmt_conv_t) (w : world)
  : outcome (lmt_status_t * option spec_float * world) :=
  '(rslt, pulses, w) <- lmt_get_pulse_count fuel dev None w ;;
  if negb (lmt_status_eqb rslt LMT_OK) then Ret (rslt, temp, w)
  else
    p <- match pulses with
         | Some p => Ret p
         | None => Undefined Uninitialised
         end ;;
    t <- lmt_pulses_to_temperature p type ;;
    Ret (LMT_OK, Some t, w).
End Driver.

Arguments timer {world} _.
Arguments start_timer {world} _.
Arguments stop_timer {world} _.
Arguments set_timer_cnt {world} _.
Arguments get_timer_cnt {world} _.
Arguments delay_ms {world} _.
Arguments null_ptr_check {world} dev.
Arguments count_pulses_ms {world} dev period w.
Arguments lmt_init {world} dev w.
Arguments drain {world} fuel dev w.
Arguments lmt_get_pulse_count {world} fuel dev pulses w.
Arguments lmt_get_temperature {world} fuel dev temp type w.

(** ** The reading functions with their output pointer

    [lmt_get_pulse_count] and [lmt_get_temperature] above take the
    content of the object behind their output pointer: they are the
    calls made with a pointer to an object.  Below the pointer itself is
    the argument: [None] is the null pointer, [Some c] points to an
    object of content [c] ([c = None]: indeterminate).  Neither function
    tests that pointer before it stores through it. *)
Section Pointers.
Variable world : Type.

(** [*p = v] *)
Definition store {A : Type} (p : option (option A)) (v : A)
  : outcome (option (option A)) :=
  match p with
  | Some _ => Ret (Some (Some v))
  | None => Undefined NullPointer
  end.

(** [lmt_get_pulse_count], [pulses] being the pointer. *)
Definition lmt_get_pulse_count_at (fuel : nat) (dev : option (lmt01_dev world))
    (pulses : option (option Z)) (w : world)
  : outcome (lmt_status_t * option (option Z) * world) :=
  if negb (lmt_status_eqb (null_ptr_check dev) LMT_OK) then
    Ret (LMT_E_NULL_PTR, pulses, w)
  else
    d <- callee dev ;;
    w <- drain fuel d w ;;
    '(pulse_count, w) <- count_pulses_ms d 104 w ;;
    if pulse_count =? 0 then Ret (LMT_E_DEV_NOT_FOUND, pulses, w)
    else
      pulses <- store pulses pulse_count ;;
      Ret (LMT_OK, pulses, w).

(** [lmt_get_temperature], [temp] being the pointer.  The pointer
    handed to [lmt_get_pulse_count] is the address of the local
    [pulses], whose content is indeterminate before the call. *)
Definition lmt_get_temperature_at (fuel : nat) (dev : option (lmt01_dev world))
    (temp : option (option spec_float)) (type : lmt_conv_t) (w : world)
  : outcome (lmt_status_t * option (option spec_float) * world) :=
  '(rslt, pulses, w) <- lmt_get_pulse_count_at fuel dev (Some None) w ;;
  if negb (lmt_status_eqb rslt LMT_OK) then Ret (rslt, temp, w)
  else
    p <- match pulses with
         | Some (Some p) => Ret p
         | _ => Undefined Uninitialised
         end ;;
    t <- lmt_pulses_to_temperature p type ;;
    temp <- store temp t ;;
    Ret (LMT_OK, temp, w).
End Pointers.

Arguments store {A} p v.
Arguments lmt_get_pulse_count_at {world} fuel dev pulses w.
Arguments lmt_get_temperature_at {world} fuel dev temp type w.

(** ** The driver on a device whose callbacks are all present *)
Section Windows.
Variable world : Type.
Variables fstart fstop : Z -> world -> world.
Variable fset : Z -> Z -> world -> world.
Variable fget : Z -> world -> Z * world.
Variable fdelay : Z -> world -> world.

(** What [count_pulses_ms] does through non-null callbacks: the count of
    one window of [period] ms, and the hardware after it. *)
Definition window (t : Z) (period : Z) (w : world) : Z * world :=
  let w := fstop t w in
  let w := fset t 0 w in
  let w := fstart t w in
  let w := fdelay period w in
  let w := fstop t w in
  let '(cnt, w) := fget t w in
  (uint32 cnt, w).

(** The hardware after [n] windows of 10 ms in a row. *)
Fixpoint after_probes (t : Z) (n : nat) (w : world) : world :=
  match n with
  | O => w
  | S n' => after_probes t n' (snd (window t 10 w))
  end.
End Windows.

Arguments window {world} fstart fstop fset fget fdelay t period w.
Arguments after_probes {world} fstart fstop fset fget fdelay t n w.

(** ** Checking the table conversion over a run of pulse counts *)

(** The table conversion is defined, finite and nondecreasing from each
    of the [n] pulse counts [p], [p + 1], ... to the next one. *)
Fixpoint nondecreasing_from (n : nat) (p : Z) : bool :=
  match n with
  | O => true
  | S n' =>
      match lmt_pulses_to_temperature p CONV_TYPE_LUT,
            lmt_pulses_to_temperature (p + 1) CONV_TYPE_LUT with
      | Ret a, Ret b =>
          is_finite a && is_finite b && SFleb a b && nondecreasing_from n' (p + 1)
      | _, _ => false
      end
  end.

(** [p1] and [p2] both convert, to finite temperatures in that order. *)
Definition lut_le (p1 p2 : Z) : Prop :=
  exists t1 t2 : spec_float,
    lmt_pulses_to_temperature p1 CONV_TYPE_LUT = Ret t1
    /\ lmt_pulses_to_temperature p2 CONV_TYPE_LUT = Ret t2
    /\ is_finite t1 = true /\ is_finite t2 = true
    /\ SFleb t1 t2 = true.

(** ** Test benches

    Two devices to run the driver on.  The first records the calls made
    to the timer, most recent first, and reads the successive counts
    from a script (zero once the script is used up).  The second is a
    sensor that never stops pulsing: every window counts 7. *)
Inductive timer_call : Type :=
  | CallStart (t : Z)
  | CallStop (t : Z)
  | CallSetCnt (t : Z) (cnt : Z)
  | CallGetCnt (t : Z)
  | CallDelay (ms : Z).

Record bench : Type := { calls : list timer_call; script : list Z }.

Definition record (c : timer_call) (w : bench) : bench :=
  {| calls := c :: calls w; script := script w |}.

Definition bench_get (t : Z) (w : bench) : Z * bench :=
  match script w with
  | [] => (0, record (CallGetCnt t) w)
  | c :: rest => (c, {| calls := CallGetCnt t :: calls w; script := rest |})
  end.

Definition bench_dev : lmt01_dev bench :=
  {| timer := 1;
     start_timer := Some (fun t => record (CallStart t));
     stop_timer := Some (fun t => record (CallStop t));
     set_timer_cnt := Some (fun t cnt => record (CallSetCnt t cnt));
     get_timer_cnt := Some bench_get;
     delay_ms := Some (fun ms => record (CallDelay ms)) |}.

Definition busy_dev : lmt01_dev unit :=
  {| timer := 1;
     start_timer := Some (fun _ w => w);
     stop_timer := Some (fun _ w => w);
     set_timer_cnt := Some (fun _ _ w => w);
     get_timer_cnt := Some (fun _ w => (7, w));
     delay_ms := Some (fun _ w => w) |}.

(** ** Exact arithmetic, and checks over runs of pulse counts *)

(** The expression of [map], over the rationals. *)
Definition map_exact (val in_min in_max out_min out_max : Q) : Q :=
  (val - in_min) * (out_max - out_min) / (in_max - in_min) + out_min.

(** [f] holds at each of the [n] integers from [p] on. *)
Fixpoint holds_from (f : Z -> bool) (n : nat) (p : Z) : bool :=
  match n with
  | O => true
  | S n' => f p && holds_from f n' (p + 1)
  end.

(** The table conversion of [p] is within [eps] of [map] in exact
    arithmetic, over the rows that the scan of the source selects. *)
Definition lut_accurate_at (eps : Q) (p : Z) : bool :=
  match lut_scan LEN_lut 0 p with
  | Ret i =>
      match lut_at i 1, lut_at (i + 1) 1, lut_at i 0, lut_at (i + 1) 0,
            lmt_pulses_to_temperature p CONV_TYPE_LUT with
      | Ret in_min, Ret in_max, Ret out_min, Ret out_max, Ret t =>
          Qle_bool
            (Qabs (SF2Q t
                   - map_exact (inject_Z p) (inject_Z in_min) (inject_Z in_max)
                               (inject_Z out_min) (inject_Z out_max)))
            eps
      | _, _, _, _, _ => false
      end
  | _ => false
  end.

(** The table conversion of [p + 1] is above that of [p]. *)
Definition lut_increasing_at (p : Z) : bool :=
  match lmt_pulses_to_temperature p CONV_TYPE_LUT,
        lmt_pulses_to_temperature (p + 1) CONV_TYPE_LUT with
  | Ret a, Ret b => is_finite a && is_finite b && SFltb a b
  | _, _ => false
  end.

(** The table conversion of [p] does not compare equal to -1. *)
Definition lut_not_minus_one_at (p : Z) : bool :=
  match lmt_pulses_to_temperature p CONV_TYPE_LUT with
  | Ret t => negb (SFeqb t (Single.of_Z (-1)))
  | _ => false
  end.

(** The two conversions of [p] are within [eps] of each other. *)
Definition methods_close_at (eps : Q) (p : Z) : bool :=
  match lmt_pulses_to_temperature p CONV_TYPE_LUT,
        lmt_pulses_to_temperature p CONV_TYPE_EQU with
  | Ret t, Ret u => Qle_bool (Qabs (SF2Q t - SF2Q u)) eps
  | _, _ => false
  end.

(** The milliseconds of delay asked of the bench so far. *)
Fixpoint requested_delay (l : list timer_call) : Z :=
  match l with
  | [] => 0
  | CallDelay ms :: l' => ms + requested_delay l'
  | _ :: l' => requested_delay l'
  end.

Definition bench_elapsed (w : bench) : Z := requested_delay (calls w).

(** * Properties *)

(** ** Floating-point operations that lose nothing

    [SpecFloat] rounds every result through [binary_round_aux]: the
    mantissa is shifted right to the exponent of the format, the bits
    dropped decide the rounding.  When the bits dropped are all zero the
    result is the operand itself; this section proves it, for the
    formats and operations the equation of the driver goes through. *)

(** *** Number of bits *)

(** [digits2_pos p] is the length of [p] in binary. *)
Lemma digits2_pos_bounds :
  forall p : positive,
    2 ^ (Zpos (digits2_pos p) - 1) <= Zpos p < 2 ^ Zpos (digits2_pos p).
Proof.
  induction p as [p IH|p IH|]; cbn [digits2_pos].
  - rewrite Pos2Z.inj_succ.
    replace (Z.succ (Zpos (digits2_pos p)) - 1) with (Z.succ (Zpos (digits2_pos p) - 1)) by lia.
    rewrite !Z.pow_succ_r by lia. lia.
  - rewrite Pos2Z.inj_succ.
    replace (Z.succ (Zpos (digits2_pos p)) - 1) with (Z.succ (Zpos (digits2_pos p) - 1)) by lia.
    rewrite !Z.pow_succ_r by lia. lia.
  - simpl. lia.
Qed.

Lemma digits2_pos_unique :
  forall (p : positive) (d : Z),
    2 ^ (d - 1) <= Zpos p < 2 ^ d -> Zpos (digits2_pos p) = d.
Proof.
  intros p d [Hl Hu].
  destruct (digits2_pos_bounds p) as [Hl' Hu'].
  assert (0 < d).
  { destruct (Z.ltb_spec 0 d); [assumption|].
    destruct (Z.eq_dec d 0) as [->|]; [simpl in Hu; lia|].
    rewrite Z.pow_neg_r in Hu by lia. lia. }
  destruct (Z.lt_trichotomy (Zpos (digits2_pos p)) d) as [Hlt|[Heq|Hgt]];
    [exfalso | assumption | exfalso].
  - assert (2 ^ Zpos (digits2_pos p) <= 2 ^ (d - 1))
      by (apply Z.pow_le_mono_r; lia). lia.
  - assert (2 ^ d <= 2 ^ (Zpos (digits2_pos p) - 1))
      by (apply Z.pow_le_mono_r; lia). lia.
Qed.

Lemma digits2_pos_shift :
  forall (k m : positive) (n : Z),
    0 <= n -> Zpos m = Zpos k * 2 ^ n ->
    Zpos (digits2_pos m) = Zpos (digits2_pos k) + n.
Proof.
  intros k m n Hn Hm. apply digits2_pos_unique.
  destruct (digits2_pos_bounds k) as [Hl Hu].
  replace (Zpos (digits2_pos k) + n - 1) with (Zpos (digits2_pos k) - 1 + n) by lia.
  rewrite !Z.pow_add_r by lia. rewrite Hm.
  assert (0 < 2 ^ n) by (apply Z.pow_pos_nonneg; lia).
  nia.
Qed.

Lemma digits2_pos_le :
  forall (q : positive) (n : Z),
    0 <= n -> Zpos q < 2 ^ n -> Zpos (digits2_pos q) <= n.
Proof.
  intros q n Hn Hq.
  destruct (digits2_pos_bounds q) as [Hl _].
  destruct (Z.le_gt_cases (Zpos (digits2_pos q)) n) as [|Hgt]; [assumption|].
  assert (2 ^ n <= 2 ^ (Zpos (digits2_pos q) - 1))
    by (apply Z.pow_le_mono_r; lia).
  lia.
Qed.

(** *** Shifts that drop no bit *)

(** One step to the right of an even number sets neither the round nor
    the sticky bit. *)
Lemma shr_1_even :
  forall z : Z,
    shr_1 {| shr_m := 2 * z; shr_r := false; shr_s := false |}
    = {| shr_m := z; shr_r := false; shr_s := false |}.
Proof. intros [|p|p]; reflexivity. Qed.

Lemma iter_pos_shr_1_exact :
  forall (p : positive) (z : Z),
    iter_pos shr_1 p {| shr_m := z * 2 ^ Zpos p; shr_r := false; shr_s := false |}
    = {| shr_m := z; shr_r := false; shr_s := false |}.
Proof.
  induction p as [p IH|p IH|]; intros z; cbn [iter_pos].
  - replace (z * 2 ^ Zpos p~1) with (2 * ((z * 2 ^ Zpos p) * 2 ^ Zpos p)).
    + rewrite shr_1_even, !IH. reflexivity.
    + assert (E : Zpos p~1 = Z.succ (Zpos p + Zpos p)) by lia.
      rewrite E, Z.pow_succ_r, Z.pow_add_r by lia. ring.
  - replace (z * 2 ^ Zpos p~0) with ((z * 2 ^ Zpos p) * 2 ^ Zpos p).
    + rewrite !IH. reflexivity.
    + assert (E : Zpos p~0 = Zpos p + Zpos p) by lia.
      rewrite E, Z.pow_add_r by lia. ring.
  - rewrite Z.mul_comm. apply shr_1_even.
Qed.

Lemma shr_exact :
  forall (z e n : Z),
    0 <= n ->
    shr {| shr_m := z * 2 ^ n; shr_r := false; shr_s := false |} e n
    = ({| shr_m := z; shr_r := false; shr_s := false |}, e + n).
Proof.
  intros z e [|p|p] Hn; [| |lia].
  - simpl. rewrite Z.mul_1_r, Z.add_0_r. reflexivity.
  - unfold shr. rewrite iter_pos_shr_1_exact. reflexivity.
Qed.

(** [shl_align] multiplies by a power of two, or does nothing. *)
Lemma iter_xO_spec :
  forall (d m : positive), Zpos (Pos.iter xO m d) = Zpos m * 2 ^ Zpos d.
Proof.
  induction d as [|d IH] using Pos.peano_ind; intros m.
  - change (Zpos m~0 = Zpos m * 2). lia.
  - rewrite Pos.iter_succ, Pos2Z.inj_xO, IH, Pos2Z.inj_succ, Z.pow_succ_r by lia.
    ring.
Qed.

Lemma shl_align_spec :
  forall (m : positive) (e e' : Z),
    e' <= e ->
    snd (shl_align m e e') = e'
    /\ Zpos (fst (shl_align m e e')) = Zpos m * 2 ^ (e - e').
Proof.
  intros m e e' H. unfold shl_align.
  destruct (e' - e) as [|d|d] eqn:E; [| lia |].
  - replace e' with e by lia. rewrite Z.sub_diag, Z.mul_1_r. auto.
  - simpl. rewrite iter_xO_spec. replace (e - e') with (Zpos d) by lia. auto.
Qed.

Lemma shl_align_id :
  forall (m : positive) (e e' : Z),
    e <= e' -> shl_align m e e' = (m, e).
Proof.
  intros m e e' H. unfold shl_align.
  destruct (e' - e) as [|d|d] eqn:E; [reflexivity | reflexivity | lia].
Qed.

(** *** Rounding what needs none *)

Section Exact.
Variables prec emax : Z.

(** A mantissa [k * 2^n], where [k] at exponent [e + n] is in the
    format, rounds to [k] at that exponent. *)

Lemma binary_round_aux_exact :
  forall (s : bool) (k : positive) (n e : Z),
    0 <= n ->
    fexp prec emax (Zpos (digits2_pos k) + n + e) = e + n ->
    e + n <= emax - prec ->
    binary_round_aux prec emax s (Zpos k * 2 ^ n) e loc_Exact
    = S754_finite s k (e + n).
Proof.
  intros s k n e Hn Hfexp Hmax.
  assert (Hpos : 0 < Zpos k * 2 ^ n).
  { assert (0 < 2 ^ n) by (apply Z.pow_pos_nonneg; lia). lia. }
  destruct (Zpos k * 2 ^ n) as [|m|m] eqn:Hm; try lia.
  assert (Hd : Zdigits2 (Zpos m) = Zpos (digits2_pos k) + n).
  { apply (digits2_pos_shift k m n Hn (eq_sym Hm)). }
  unfold binary_round_aux, shr_fexp.
  rewrite Hd, Hfexp. replace (e + n - e) with n by lia.
  cbn [shr_record_of_loc]. rewrite <- Hm, (shr_exact (Zpos k) e n Hn).
  cbn [shr_m loc_of_shr_record round_nearest_even Zdigits2].
  replace (Zpos (digits2_pos k) + (e + n)) with (Zpos (digits2_pos k) + n + e) by lia.
  rewrite Hfexp, Z.sub_diag. cbn [shr shr_record_of_loc shr_m].
  destruct (Z.leb_spec (e + n) (emax - prec)); [reflexivity | lia].
Qed.

(** [binary_round] of a number that the format holds: the mantissa is
    brought to the exponent of the format, nothing is rounded off. *)
Lemma binary_round_exact :
  forall (s : bool) (m k : positive) (e e' : Z),
    fexp prec emax (Zpos (digits2_pos m) + e) = e' ->
    e' <= emax - prec ->
    (e' <= e /\ Zpos k = Zpos m * 2 ^ (e - e')
     \/ e <= e' /\ Zpos m = Zpos k * 2 ^ (e' - e)) ->
    binary_round prec emax s m e = S754_finite s k e'.
Proof.
  intros s m k e e' Hfexp Hmax [[He Hk]|[He Hk]]; unfold binary_round; rewrite Hfexp.
  - destruct (shl_align_spec m e e' He) as [H2 H1].
    destruct (shl_align m e e') as [mz ez]. cbn [fst snd] in H1, H2. subst ez.
    assert (mz = k) by lia. subst mz.
    replace (Zpos k) with (Zpos k * 2 ^ 0) by (rewrite Z.mul_1_r; reflexivity).
    replace e' with (e' + 0) at 2 by lia.
    apply binary_round_aux_exact; try lia.
    rewrite (digits2_pos_shift m k (e - e')) by (assumption || lia).
    replace (Zpos (digits2_pos m) + (e - e') + 0 + e') with (Zpos (digits2_pos m) + e) by lia.
    lia.
  - rewrite (shl_align_id m e e' He).
    rewrite Hk. replace e' with (e + (e' - e)) at 2 by lia.
    apply binary_round_aux_exact; try lia.
    rewrite <- (digits2_pos_shift k m (e' - e)) by (assumption || lia).
    lia.
Qed.
End Exact.

(** *** The data [dyadic] *)

Lemma dyadic_mantissa :
  forall (prec : Z) (q : positive),
    Zpos (digits2_pos q) <= prec ->
    Zpos (Z.to_pos (Zpos q * 2 ^ (prec - Zpos (digits2_pos q))))
    = Zpos q * 2 ^ (prec - Zpos (digits2_pos q)).
Proof.
  intros prec q H. apply Z2Pos.id.
  assert (0 < 2 ^ (prec - Zpos (digits2_pos q))) by (apply Z.pow_pos_nonneg; lia).
  lia.
Qed.

Lemma dyadic_digits :
  forall (prec : Z) (q : positive),
    Zpos (digits2_pos q) <= prec ->
    Zpos (digits2_pos (Z.to_pos (Zpos q * 2 ^ (prec - Zpos (digits2_pos q))))) = prec.
Proof.
  intros prec q H.
  rewrite (digits2_pos_shift q _ (prec - Zpos (digits2_pos q))).
  - lia.
  - lia.
  - apply dyadic_mantissa. assumption.
Qed.

(** The value of [dyadic prec s q e] is [q * 2^e], signed by [s]. *)
Lemma SF2Q_dyadic :
  forall (prec : Z) (s : bool) (q : positive) (e : Z),
    Zpos (digits2_pos q) <= prec ->
    SF2Q (dyadic prec s q e) == inject_Z (cond_Zopp s (Zpos q)) * (2 ^ e)%Q.
Proof.
  intros prec s q e H. unfold dyadic, SF2Q.
  set (j := prec - Zpos (digits2_pos q)).
  assert (Hj : 0 <= j) by (unfold j; lia).
  assert (Hm : cond_Zopp s (Zpos (Z.to_pos (Zpos q * 2 ^ j)))
               = cond_Zopp s (Zpos q) * 2 ^ j).
  { unfold j. rewrite dyadic_mantissa by assumption. unfold cond_Zopp. destruct s; ring. }
  rewrite Hm, inject_Z_mult, Zpower_Qpower by assumption.
  replace e with (j + (e - j)) at 2 by lia.
  rewrite Qpower_plus by discriminate.
  change (inject_Z 2) with (2%Q). ring.
Qed.

Section Normalize.
Variables prec emax : Z.

(** Rounding [q * 2^j * 2^e], where [q] has no more bits than the
    format, to the format: nothing is lost. *)
Lemma binary_round_dyadic :
  forall (s : bool) (q m : positive) (j e : Z),
    0 <= j ->
    Zpos m = Zpos q * 2 ^ j ->
    Zpos (digits2_pos q) <= prec ->
    3 - emax - prec <= Zpos (digits2_pos q) + j + e - prec ->
    Zpos (digits2_pos q) + j + e <= emax ->
    binary_round prec emax s m e = dyadic prec s q (j + e).
Proof.
  intros s q m j e Hj Hm Hq Hmin Hmax.
  pose proof (digits2_pos_shift q m j Hj Hm) as Hd.
  unfold dyadic.
  set (dq := Zpos (digits2_pos q)) in *.
  pose proof (dyadic_mantissa prec q Hq) as Hk. fold dq in Hk.
  set (k := Z.to_pos (Zpos q * 2 ^ (prec - dq))) in *.
  apply binary_round_exact.
  - rewrite Hd. unfold fexp, emin. lia.
  - lia.
  - destruct (Z.le_ge_cases (j + e - (prec - dq)) e) as [Hle|Hge].
    + left. split; [assumption|].
      rewrite Hk, Hm, <- Z.mul_assoc, <- Z.pow_add_r by lia.
      f_equal. f_equal. lia.
    + right. split; [lia|].
      rewrite Hk, Hm, <- Z.mul_assoc, <- Z.pow_add_r by lia.
      f_equal. f_equal. lia.
Qed.
End Normalize.

(** ** Conversion: the zero guard and the fall-through *)

(** C2 (as the code has it).  A pulse count of zero is rejected before
    the conversion type is looked at, whatever that type is, and what is
    returned is the [float] -1: a value that is also a reading, the one
    of 784 pulses by the equation. *)
Theorem zero_pulses_returns_minus_one :
  forall type : lmt_conv_t,
    lmt_pulses_to_temperature 0 type = Ret (Single.of_Z (-1))
    /\ SF2Q (Single.of_Z (-1)) == -1 # 1
    /\ lmt_pulses_to_temperature 784 CONV_TYPE_EQU = Ret (Single.of_Z (-1)).
Proof.
  intros type. repeat split.
Qed.

(** C2 (as the spec has it) fails: the value returned for zero pulses is
    the very value the equation yields for 784 pulses, a legitimate
    reading of -1 degree C. *)
Lemma zero_pulses_not_distinct :
  784 <> 0
  /\ lmt_pulses_to_temperature 784 CONV_TYPE_EQU
     = lmt_pulses_to_temperature 0 CONV_TYPE_EQU
  /\ lmt_pulses_to_temperature 784 CONV_TYPE_EQU
     = lmt_pulses_to_temperature 0 CONV_TYPE_LUT
  /\ ~ (forall (pulses : Z) (type type0 : lmt_conv_t),
          pulses <> 0 ->
          lmt_pulses_to_temperature pulses type
          <> lmt_pulses_to_temperature 0 type0).
Proof.
  split; [discriminate|]. split; [reflexivity|]. split; [reflexivity|].
  intros H. apply (H 784 CONV_TYPE_EQU CONV_TYPE_EQU); [discriminate | reflexivity].
Qed.

(** C10.  With a conversion type that is neither enumerator, a nonzero
    pulse count converts to +0.0, no error; and +0.0 is also what 800
    pulses give by the equation, a valid reading. *)
Theorem unknown_type_returns_zero :
  forall (pulses : Z) (type : lmt_conv_t),
    pulses <> 0 ->
    type <> CONV_TYPE_EQU ->
    type <> CONV_TYPE_LUT ->
    lmt_pulses_to_temperature pulses type = Ret (S754_zero false)
    /\ lmt_pulses_to_temperature 800 CONV_TYPE_EQU = Ret (S754_zero false).
Proof.
  intros pulses type Hp He Hl. split; [|reflexivity].
  unfold lmt_pulses_to_temperature.
  apply Z.eqb_neq in Hp, He, Hl. rewrite Hp, He, Hl. reflexivity.
Qed.

Lemma unknown_type_returns_zero_witness :
  lmt_pulses_to_temperature 1762 2 = Ret (S754_zero false)
  /\ lmt_pulses_to_temperature 800 CONV_TYPE_EQU = Ret (S754_zero false).
Proof.
  apply (unknown_type_returns_zero 1762 2); discriminate.
Defined.

(** ** Conversion by the equation *)

(** The constants of the equation, as the compiler has them. *)
Lemma double_4096 : Double.of_Z 4096 = S754_finite false 4503599627370496 (-40).
Proof. reflexivity. Qed.

Lemma double_256 : Double.of_Z 256 = S754_finite false 4503599627370496 (-44).
Proof. reflexivity. Qed.

Lemma double_50 : Double.of_Z 50 = S754_finite false 7036874417766400 (-47).
Proof. reflexivity. Qed.

(** [(double)pulses] *)
Lemma double_of_pulses :
  forall p : positive,
    Zpos p < 2 ^ 32 -> Double.of_Z (Zpos p) = dyadic 53 false p 0.
Proof.
  intros p Hp.
  pose proof (digits2_pos_le p 32 ltac:(lia) Hp) as Hd.
  unfold Double.of_Z, binary_normalize.
  apply (binary_round_dyadic Double.prec Double.emax false p p 0 0);
    unfold Double.prec, Double.emax; lia.
Qed.

(** [x / 4096.0] *)
Lemma double_div_4096 :
  forall (s : bool) (q : positive) (e : Z),
    Zpos (digits2_pos q) <= 53 ->
    -900 <= e <= 900 ->
    Double.div (dyadic 53 s q e) (Double.of_Z 4096) = dyadic 53 s q (e - 12).
Proof.
  intros s q e Hq He. rewrite double_4096. unfold dyadic.
  pose proof (dyadic_digits 53 q Hq) as Hd.
  pose proof (digits2_pos_bounds q) as Hb.
  assert (0 < Zpos (digits2_pos q)) by lia.
  set (m := Z.to_pos (Zpos q * 2 ^ (53 - Zpos (digits2_pos q)))) in *.
  set (e1 := e - (53 - Zpos (digits2_pos q))).
  assert (He1 : -1000 <= e1 <= 900) by (unfold e1; lia).
  unfold Double.div, SFdiv, SFdiv_core_binary. cbn [Zdigits2].
  rewrite Hd. change (Zpos (digits2_pos 4503599627370496)) with 53.
  assert (E : Z.min (fexp Double.prec Double.emax (53 + e1 - (53 + -40)))
                    (e1 - -40) = e1 - 13).
  { unfold fexp, emin, Double.prec, Double.emax. lia. }
  cbv zeta. rewrite E.
  replace (e1 - -40 - (e1 - 13)) with 53 by lia. cbv beta iota.
  rewrite Z.shiftl_mul_pow2 by lia.
  assert (Hq' : (Zpos m * 2 ^ 53) / 4503599627370496 = Zpos m * 2 ^ 1).
  { replace (Zpos m * 2 ^ 53) with (Zpos m * 2 ^ 1 * 4503599627370496).
    - apply Z.div_mul. discriminate.
    - change (2 ^ 53) with (2 ^ 1 * 4503599627370496). ring. }
  assert (Hr : (Zpos m * 2 ^ 53) mod 4503599627370496 = 0).
  { replace (Zpos m * 2 ^ 53) with (Zpos m * 2 ^ 1 * 4503599627370496).
    - apply Z.mod_mul. discriminate.
    - change (2 ^ 53) with (2 ^ 1 * 4503599627370496). ring. }
  unfold Z.div, Z.modulo in Hq', Hr.
  destruct (Z.div_eucl (Zpos m * 2 ^ 53) 4503599627370496) as [qz rz].
  subst qz rz.
  change (new_location 4503599627370496 0) with loc_Exact.
  rewrite xorb_false_r.
  rewrite binary_round_aux_exact.
  - f_equal. unfold e1. lia.
  - lia.
  - rewrite Hd. unfold fexp, emin, Double.prec, Double.emax. lia.
  - unfold Double.prec, Double.emax. lia.
Qed.

(** [x * 256.0] *)
Lemma double_mul_256 :
  forall (s : bool) (q : positive) (e : Z),
    Zpos (digits2_pos q) <= 53 ->
    -900 <= e <= 900 ->
    Double.mul (dyadic 53 s q e) (Double.of_Z 256) = dyadic 53 s q (e + 8).
Proof.
  intros s q e Hq He. rewrite double_256. unfold dyadic.
  pose proof (dyadic_digits 53 q Hq) as Hd.
  pose proof (digits2_pos_bounds q) as Hb.
  assert (0 < Zpos (digits2_pos q)) by lia.
  set (m := Z.to_pos (Zpos q * 2 ^ (53 - Zpos (digits2_pos q)))) in *.
  set (e1 := e - (53 - Zpos (digits2_pos q))).
  assert (He1 : -1000 <= e1 <= 900) by (unfold e1; lia).
  unfold Double.mul, SFmul.
  rewrite xorb_false_r, Pos2Z.inj_mul.
  change (Zpos 4503599627370496) with (2 ^ 52).
  rewrite binary_round_aux_exact.
  - f_equal. unfold e1. lia.
  - lia.
  - rewrite Hd. unfold fexp, emin, Double.prec, Double.emax. lia.
  - unfold Double.prec, Double.emax. lia.
Qed.

(** [x - 50.0], for [x] the sixteenth of a pulse count. *)
Lemma double_sub_50 :
  forall p : positive,
    Zpos p < 2 ^ 32 ->
    Double.sub (dyadic 53 false p (-4)) (Double.of_Z 50)
    = match Zpos p - 800 with
      | Z0 => S754_zero false
      | Zpos q => dyadic 53 false q (-4)
      | Zneg q => dyadic 53 true q (-4)
      end.
Proof.
  intros p Hp. rewrite double_50.
  pose proof (digits2_pos_le p 32 ltac:(lia) Hp) as Hdp.
  pose proof (digits2_pos_bounds p) as Hbp.
  assert (Hdp0 : 0 < Zpos (digits2_pos p)) by lia.
  unfold dyadic at 1.
  pose proof (dyadic_mantissa 53 p ltac:(lia)) as Hm.
  set (m := Z.to_pos (Zpos p * 2 ^ (53 - Zpos (digits2_pos p)))) in *.
  set (e1 := -4 - (53 - Zpos (digits2_pos p))).
  unfold Double.sub, SFsub. cbv zeta. cbn [cond_Zopp].
  set (ez := Z.min e1 (-47)).
  assert (Hez : ez <= e1 /\ ez <= -47 /\ -60 <= ez) by (unfold ez, e1; lia).
  destruct (shl_align_spec m e1 ez ltac:(lia)) as [_ H1].
  destruct (shl_align_spec 7036874417766400 (-47) ez ltac:(lia)) as [_ H2].
  rewrite H1, H2, Hm. clear H1 H2.
  set (J := -4 - ez).
  assert (Hz : Zpos p * 2 ^ (53 - Zpos (digits2_pos p)) * 2 ^ (e1 - ez)
               - 7036874417766400 * 2 ^ (-47 - ez)
               = (Zpos p - 800) * 2 ^ J).
  { rewrite <- Z.mul_assoc, <- Z.pow_add_r by lia.
    replace (53 - Zpos (digits2_pos p) + (e1 - ez)) with J by (unfold J, e1; lia).
    change 7036874417766400 with (800 * 2 ^ 43).
    rewrite <- Z.mul_assoc, <- Z.pow_add_r by lia.
    replace (43 + (-47 - ez)) with J by (unfold J; lia).
    ring. }
  rewrite Hz. clear Hz.
  assert (HJ : 0 <= J) by (unfold J; lia).
  assert (H2J : 0 < 2 ^ J) by (apply Z.pow_pos_nonneg; lia).
  destruct (Zpos p - 800) as [|q|q] eqn:Hq.
  - reflexivity.
  - destruct (Zpos q * 2 ^ J) as [|mz|mz] eqn:Hmz; try lia.
    unfold binary_normalize.
    assert (Hdq : Zpos (digits2_pos q) <= 32)
      by (apply digits2_pos_le; lia).
    pose proof (digits2_pos_bounds q).
    rewrite (binary_round_dyadic Double.prec Double.emax false q mz J ez);
      unfold Double.prec, Double.emax; try lia.
    f_equal. unfold J. lia.
  - assert (Hneg : Zneg q * 2 ^ J = - (Zpos q * 2 ^ J)) by lia.
    rewrite Hneg.
    destruct (Zpos q * 2 ^ J) as [|mz|mz] eqn:Hmz; try lia.
    cbn [Z.opp]. unfold binary_normalize.
    assert (Hdq : Zpos (digits2_pos q) <= 32)
      by (apply digits2_pos_le; lia).
    pose proof (digits2_pos_bounds q).
    rewrite (binary_round_dyadic Double.prec Double.emax true q mz J ez);
      unfold Double.prec, Double.emax; try lia.
    f_equal. unfold J. lia.
Qed.

(** [(float)x] keeps a number of at most 24 bits. *)
Lemma single_of_double_dyadic :
  forall (s : bool) (q : positive) (e : Z),
    Zpos (digits2_pos q) <= 24 ->
    -100 <= e <= 100 ->
    Single.of_double (dyadic 53 s q e) = dyadic 24 s q e.
Proof.
  intros s q e Hq He.
  pose proof (digits2_pos_bounds q).
  assert (0 < Zpos (digits2_pos q)) by lia.
  unfold dyadic at 1. unfold Single.of_double.
  rewrite (binary_round_dyadic Single.prec Single.emax s q _
             (53 - Zpos (digits2_pos q)) (e - (53 - Zpos (digits2_pos q))));
    unfold Single.prec, Single.emax; try lia.
  f_equal. lia.
Qed.

Lemma equation_double_exact :
  forall pulses : Z,
    0 < pulses < 2 ^ 32 ->
    equation_double pulses
    = match pulses - 800 with
      | Z0 => S754_zero false
      | Zpos q => dyadic 53 false q (-4)
      | Zneg q => dyadic 53 true q (-4)
      end.
Proof.
  intros pulses Hp. destruct pulses as [|p|p]; try lia.
  pose proof (digits2_pos_le p 32 ltac:(lia) ltac:(lia)) as Hd.
  unfold equation_double.
  rewrite double_of_pulses by lia.
  rewrite double_div_4096 by lia.
  rewrite double_mul_256 by lia.
  change (0 - 12 + 8) with (-4).
  apply double_sub_50. lia.
Qed.

Lemma sixteenth_is_equation :
  forall z : Z,
    inject_Z (z - 800) * (2 ^ (-4))%Q == inject_Z z / 4096 * 256 - 50.
Proof.
  intros z. change ((2 ^ (-4))%Q) with (1 # 16).
  unfold Z.sub. rewrite inject_Z_plus. change (inject_Z (- (800))) with (- (800))%Q.
  field.
Qed.

(** C3 (as the code has it).  For every nonzero pulse count of the
    32-bit range, and with no bound checked, the [double] expression of
    the equation is evaluated without any rounding: its value is
    [pulses / 4096 * 256 - 50].  What is returned is that [double]
    converted to [float], and the conversion keeps the value whenever
    [pulses - 800] fits the 24 bits of a [float], i.e. up to
    16778015 pulses. *)
Theorem equation_conversion :
  forall pulses : Z,
    0 < pulses < 2 ^ 32 ->
    lmt_pulses_to_temperature pulses CONV_TYPE_EQU
    = Ret (Single.of_double (equation_double pulses))
    /\ is_finite (equation_double pulses) = true
    /\ SF2Q (equation_double pulses) == inject_Z pulses / 4096 * 256 - 50
    /\ (Z.abs (pulses - 800) < 2 ^ 24 ->
        is_finite (Single.of_double (equation_double pulses)) = true
        /\ SF2Q (Single.of_double (equation_double pulses))
           == inject_Z pulses / 4096 * 256 - 50).
Proof.
  intros pulses Hp.
  split.
  { unfold lmt_pulses_to_temperature.
    destruct (Z.eqb_spec pulses 0); [lia | reflexivity]. }
  rewrite <- sixteenth_is_equation.
  rewrite (equation_double_exact pulses Hp).
  destruct (pulses - 800) as [|q|q] eqn:Hq.
  - repeat split; reflexivity.
  - assert (Hd : Zpos (digits2_pos q) <= 32) by (apply digits2_pos_le; lia).
    split; [reflexivity|]. split.
    + rewrite SF2Q_dyadic by lia. reflexivity.
    + intros H24.
      assert (Zpos (digits2_pos q) <= 24) by (apply digits2_pos_le; lia).
      rewrite single_of_double_dyadic by lia.
      split; [reflexivity|]. rewrite SF2Q_dyadic by lia. reflexivity.
  - assert (Hd : Zpos (digits2_pos q) <= 32) by (apply digits2_pos_le; lia).
    split; [reflexivity|]. split.
    + rewrite SF2Q_dyadic by lia. reflexivity.
    + intros H24.
      assert (Zpos (digits2_pos q) <= 24) by (apply digits2_pos_le; lia).
      rewrite single_of_double_dyadic by lia.
      split; [reflexivity|]. rewrite SF2Q_dyadic by lia. reflexivity.
Qed.

Lemma equation_conversion_witness :
  lmt_pulses_to_temperature 1762 CONV_TYPE_EQU
  = Ret (Single.of_double (equation_double 1762))
  /\ is_finite (equation_double 1762) = true
  /\ SF2Q (equation_double 1762) == inject_Z 1762 / 4096 * 256 - 50
  /\ (Z.abs (1762 - 800) < 2 ^ 24 ->
      is_finite (Single.of_double (equation_double 1762)) = true
      /\ SF2Q (Single.of_double (equation_double 1762))
         == inject_Z 1762 / 4096 * 256 - 50).
Proof.
  apply (equation_conversion 1762). split; reflexivity.
Defined.

(** C3 (as the spec has it) fails: at 16778017 pulses, the first count
    whose distance to 800 does not fit 24 bits, the equation is worth
    1048576.0625 and the [float] returned is 1048576. *)
Lemma equation_inexact_beyond_float :
  0 < 16778017 < 2 ^ 32
  /\ lmt_pulses_to_temperature 16778017 CONV_TYPE_EQU
     = Ret (S754_finite false 8388608 (-3))
  /\ SF2Q (S754_finite false 8388608 (-3)) == 1048576 # 1
  /\ inject_Z 16778017 / 4096 * 256 - 50 == 16777217 # 16
  /\ ~ SF2Q (S754_finite false 8388608 (-3))
       == inject_Z 16778017 / 4096 * 256 - 50.
Proof.
  repeat split; try reflexivity. intros H. vm_compute in H. discriminate H.
Qed.

(** ** Conversion by the table *)

Lemma lut_scan_skip_below :
  forall (n i : nat) (pulses lo : Z),
    lut_at i 1 = Ret lo ->
    pulses < uint32 lo ->
    lut_scan (S n) i pulses = lut_scan n (S i) pulses.
Proof.
  intros n i pulses lo Hlo Hlt. simpl. rewrite Hlo. simpl.
  destruct (Z.geb_spec pulses (uint32 lo)); [lia | reflexivity].
Qed.

Lemma lut_scan_skip_above :
  forall (n i : nat) (pulses lo hi : Z),
    lut_at i 1 = Ret lo ->
    lut_at (i + 1) 1 = Ret hi ->
    uint32 hi < pulses ->
    lut_scan (S n) i pulses = lut_scan n (S i) pulses.
Proof.
  intros n i pulses lo hi Hlo Hhi Hlt. simpl. rewrite Hlo, Hhi. simpl.
  destruct (pulses >=? uint32 lo); [|reflexivity].
  destruct (Z.leb_spec pulses (uint32 hi)); [lia | reflexivity].
Qed.

Ltac uint32_bound := vm_compute uint32; lia.

Ltac scan_skip :=
  match goal with
  | |- context [lut_scan (S ?n) ?i ?p] =>
      first [ rewrite (lut_scan_skip_below n i p _ eq_refl) by uint32_bound
            | rewrite (lut_scan_skip_above n i p _ _ eq_refl eq_refl)
                by uint32_bound ]
  end.

(** Outside the pulses of the table the scan runs off the array: below
    the first anchor the loop ends with [i = 21] and [map]'s arguments
    are read from rows 21 and 22; above the last anchor the test of the
    iteration [i = 20] reads [lut[21][1]]. *)
Lemma lut_out_of_range :
  forall pulses : Z,
    pulses <> 0 ->
    pulses < 26 \/ 3218 < pulses ->
    lmt_pulses_to_temperature pulses CONV_TYPE_LUT = Undefined OutOfBounds.
Proof.
  intros pulses Hp Hr.
  unfold lmt_pulses_to_temperature.
  apply Z.eqb_neq in Hp. rewrite Hp.
  change (CONV_TYPE_LUT =? CONV_TYPE_EQU) with false.
  change (CONV_TYPE_LUT =? CONV_TYPE_LUT) with true.
  change LEN_lut with 21%nat.
  destruct Hr.
  - do 21 scan_skip. reflexivity.
  - do 20 scan_skip. simpl.
    destruct (pulses >=? _); reflexivity.
Qed.

(** C1 (the code at the failing inputs).  3219 pulses, one more than the
    last anchor, and 25, one less than the first, both send the table
    conversion outside [lut]: the behaviour is undefined, and no error
    value exists that the function could return. *)
Theorem lut_conversion_reads_past_table :
  lmt_pulses_to_temperature 3219 CONV_TYPE_LUT = Undefined OutOfBounds
  /\ lut_scan LEN_lut 0 3219 = Undefined OutOfBounds
  /\ lmt_pulses_to_temperature 25 CONV_TYPE_LUT = Undefined OutOfBounds
  /\ lut_scan LEN_lut 0 25 = Ret 21%nat
  /\ LEN_lut = 21%nat.
Proof.
  split; [apply lut_out_of_range; [discriminate | right; reflexivity]|].
  split; [reflexivity|].
  split; [apply lut_out_of_range; [discriminate | left; reflexivity]|].
  split; reflexivity.
Qed.

(** C4.  At the pulses of every row of the table the table conversion
    returns the temperature of that row, exactly. *)
Theorem lut_exact_at_anchors :
  forall (i : nat) (temp pulses : Z),
    nth_error lut i = Some (temp, pulses) ->
    lmt_pulses_to_temperature pulses CONV_TYPE_LUT = Ret (Single.of_Z temp)
    /\ SF2Q (Single.of_Z temp) == inject_Z temp.
Proof.
  intros i temp pulses H.
  do 21 (destruct i as [|i];
         [injection H as <- <-; split; vm_compute; reflexivity|]).
  destruct i; discriminate.
Qed.

Lemma lut_exact_at_anchors_witness :
  lmt_pulses_to_temperature 1762 CONV_TYPE_LUT = Ret (Single.of_Z 60)
  /\ SF2Q (Single.of_Z 60) == inject_Z 60.
Proof.
  apply (lut_exact_at_anchors 11 60 1762). reflexivity.
Defined.

(** *** Monotonicity *)

(** [<=] on [float] is transitive (no operand of a true comparison is a
    NaN). *)
Lemma SFleb_trans :
  forall a b c : spec_float,
    SFleb a b = true -> SFleb b c = true -> SFleb a c = true.
Proof.
  unfold SFleb, SFcompare.
  intros [sa|sa| |sa ma ea] [sb|sb| |sb mb eb] [sc|sc| |sc mc ec];
    try destruct sa; try destruct sb; try destruct sc;
    try discriminate; try reflexivity; intros Hab Hbc.
  all: change (Pos.compare_cont Eq) with Pos.compare in *.
  all: destruct (Z.compare_spec ea eb); try discriminate;
       destruct (Z.compare_spec eb ec); try discriminate;
       destruct (Z.compare_spec ea ec); try reflexivity; try lia; subst.
  all: destruct (Pos.compare_spec ma mb); try discriminate;
       destruct (Pos.compare_spec mb mc); try discriminate;
       destruct (Pos.compare_spec ma mc); try reflexivity; try lia.
Qed.

Lemma SFleb_refl :
  forall a : spec_float, is_finite a = true -> SFleb a a = true.
Proof.
  intros [s|s| |s m e]; try discriminate; try reflexivity.
  intros _. unfold SFleb, SFcompare.
  rewrite Z.compare_refl.
  change (Pos.compare_cont Eq m m) with (Pos.compare m m).
  rewrite Pos.compare_refl. destruct s; reflexivity.
Qed.

Lemma nondecreasing_from_step :
  forall (n : nat) (p : Z),
    nondecreasing_from n p = true ->
    forall k : nat, (k < n)%nat -> lut_le (p + Z.of_nat k) (p + Z.of_nat k + 1).
Proof.
  induction n as [|n IH]; intros p H k Hk; [lia|].
  simpl in H.
  destruct (lmt_pulses_to_temperature p CONV_TYPE_LUT) as [a| |] eqn:Ea;
    try discriminate.
  destruct (lmt_pulses_to_temperature (p + 1) CONV_TYPE_LUT) as [b| |] eqn:Eb;
    try discriminate.
  apply andb_prop in H as [H Hn]. apply andb_prop in H as [H Hle].
  apply andb_prop in H as [Hfa Hfb].
  destruct k as [|k].
  - rewrite Z.add_0_r. exists a, b. auto.
  - replace (p + Z.of_nat (S k)) with (p + 1 + Z.of_nat k) by lia.
    apply IH; [assumption | lia].
Qed.

Lemma lut_le_trans :
  forall p q r : Z, lut_le p q -> lut_le q r -> lut_le p r.
Proof.
  intros p q r (a & b & Ha & Hb & Fa & Fb & Hab) (b' & c & Hb' & Hc & _ & Fc & Hbc).
  rewrite Hb in Hb'. injection Hb' as <-.
  exists a, c. repeat split; try assumption.
  exact (SFleb_trans a b c Hab Hbc).
Qed.

Lemma lut_table_nondecreasing : nondecreasing_from 3192 26 = true.
Proof. vm_compute. reflexivity. Qed.

(** Over the whole span of the table, more pulses never convert to a
    lower temperature. *)
Lemma lut_monotonic_on_table :
  forall p1 p2 : Z, 26 <= p1 -> p1 <= p2 -> p2 <= 3218 -> lut_le p1 p2.
Proof.
  intros p1 p2 H1 H12 H2.
  assert (Hstep : forall q, 26 <= q < 3218 -> lut_le q (q + 1)).
  { intros q Hq.
    replace q with (26 + Z.of_nat (Z.to_nat (q - 26))) by lia.
    apply (nondecreasing_from_step 3192 26 lut_table_nondecreasing). lia. }
  remember (Z.to_nat (p2 - p1)) as d eqn:Hd.
  revert p2 H12 H2 Hd.
  induction d as [|d IH]; intros p2 H12 H2 Hd.
  - assert (p2 = p1) by lia. subst p2.
    destruct (Z.eq_dec p1 3218) as [->|Hne].
    + destruct (Hstep 3217 ltac:(lia)) as (a & b & _ & Hb & _ & Fb & _).
      exists b, b. repeat split; auto using SFleb_refl.
    + destruct (Hstep p1 ltac:(lia)) as (a & b & Ha & _ & Fa & _ & _).
      exists a, a. repeat split; auto using SFleb_refl.
  - apply (lut_le_trans p1 (p2 - 1) p2).
    + apply IH; lia.
    + replace p2 with (p2 - 1 + 1) at 2 by lia. apply Hstep. lia.
Qed.

Lemma lut_segment_bounds :
  forall (i : nat) (lo hi : Z),
    lut_at i 1 = Ret lo -> lut_at (i + 1) 1 = Ret hi ->
    26 <= lo /\ hi <= 3218.
Proof.
  intros i lo hi Hlo Hhi.
  do 20 (destruct i as [|i];
         [vm_compute in Hlo, Hhi;
          injection Hlo as <-; injection Hhi as <-; lia|]).
  destruct i as [|i]; [discriminate Hhi|].
  unfold lut_at in Hlo. simpl in Hlo. destruct i; discriminate Hlo.
Qed.

(** C5.  Between two adjacent anchors, bounds included, the table
    conversion is defined and nondecreasing in the pulse count. *)
Theorem lut_monotonic :
  forall (i : nat) (lo hi p1 p2 : Z),
    lut_at i 1 = Ret lo ->
    lut_at (i + 1) 1 = Ret hi ->
    lo <= p1 -> p1 <= p2 -> p2 <= hi ->
    exists t1 t2 : spec_float,
      lmt_pulses_to_temperature p1 CONV_TYPE_LUT = Ret t1
      /\ lmt_pulses_to_temperature p2 CONV_TYPE_LUT = Ret t2
      /\ is_finite t1 = true /\ is_finite t2 = true
      /\ SFleb t1 t2 = true.
Proof.
  intros i lo hi p1 p2 Hlo Hhi H1 H12 H2.
  destruct (lut_segment_bounds i lo hi Hlo Hhi) as [Hb1 Hb2].
  apply lut_monotonic_on_table; lia.
Qed.

Lemma lut_monotonic_witness :
  exists t1 t2 : spec_float,
    lmt_pulses_to_temperature 1700 CONV_TYPE_LUT = Ret t1
    /\ lmt_pulses_to_temperature 1761 CONV_TYPE_LUT = Ret t2
    /\ is_finite t1 = true /\ is_finite t2 = true
    /\ SFleb t1 t2 = true.
Proof.
  apply (lut_monotonic 10 1602 1762 1700 1761); try reflexivity; lia.
Defined.

(** ** Initialisation and acquisition *)

(** C6.  [lmt_init] answers [LMT_E_NULL_PTR], touching nothing, when the
    device pointer is null or any of the five callbacks is. *)
Theorem lmt_init_null_ptr :
  forall (world : Type) (dev : option (lmt01_dev world)) (w : world),
    (dev = None
     \/ exists d : lmt01_dev world,
         dev = Some d
         /\ (start_timer d = None \/ stop_timer d = None
             \/ set_timer_cnt d = None \/ get_timer_cnt d = None
             \/ delay_ms d = None)) ->
    null_ptr_check dev = LMT_E_NULL_PTR
    /\ lmt_init dev w = Ret (LMT_E_NULL_PTR, w).
Proof.
  intros world dev w H.
  assert (Hc : null_ptr_check dev = LMT_E_NULL_PTR).
  { destruct H as [-> | (d & -> & H)]; [reflexivity|].
    unfold null_ptr_check.
    destruct H as [H | [H | [H | [H | H]]]]; rewrite H; simpl;
      rewrite ?orb_true_r; reflexivity. }
  split; [assumption|].
  unfold lmt_init. rewrite Hc. reflexivity.
Qed.

Section Complete.
Variable world : Type.
Variable d : lmt01_dev world.
Variables fstart fstop : Z -> world -> world.
Variable fset : Z -> Z -> world -> world.
Variable fget : Z -> world -> Z * world.
Variable fdelay : Z -> world -> world.
Hypothesis Hstart : start_timer d = Some fstart.
Hypothesis Hstop : stop_timer d = Some fstop.
Hypothesis Hset : set_timer_cnt d = Some fset.
Hypothesis Hget : get_timer_cnt d = Some fget.
Hypothesis Hdelay : delay_ms d = Some fdelay.

Local Abbreviation window := (window fstart fstop fset fget fdelay).
Local Abbreviation after_probes := (after_probes fstart fstop fset fget fdelay).

Lemma null_ptr_check_complete : null_ptr_check (Some d) = LMT_OK.
Proof.
  unfold null_ptr_check. rewrite Hstart, Hstop, Hset, Hget, Hdelay.
  reflexivity.
Qed.

Lemma count_pulses_ms_complete :
  forall (period : Z) (w : world),
    count_pulses_ms d period w = Ret (window (timer d) period w).
Proof.
  intros period w. unfold count_pulses_ms, window.
  rewrite Hstart, Hstop, Hset, Hget, Hdelay. simpl.
  destruct (fget _ _). reflexivity.
Qed.

Lemma drain_busy :
  forall (fuel : nat) (w : world),
    (forall k : nat, (k < fuel)%nat ->
       fst (window (timer d) 10 (after_probes (timer d) k w)) <> 0) ->
    drain fuel d w = Spinning.
Proof.
  induction fuel as [|fuel IH]; intros w H; [reflexivity|].
  simpl. rewrite count_pulses_ms_complete.
  pose proof (H O ltac:(lia)) as H0. simpl in H0.
  destruct (window (timer d) 10 w) as [cnt w'] eqn:E. simpl in *.
  apply Z.eqb_neq in H0. rewrite H0. simpl.
  apply IH. intros k Hk.
  specialize (H (S k) ltac:(lia)). simpl in H. rewrite E in H. exact H.
Qed.

Lemma drain_idle :
  forall (n fuel : nat) (w : world),
    (forall k : nat, (k < n)%nat ->
       fst (window (timer d) 10 (after_probes (timer d) k w)) <> 0) ->
    fst (window (timer d) 10 (after_probes (timer d) n w)) = 0 ->
    (n < fuel)%nat ->
    drain fuel d w = Ret (after_probes (timer d) (S n) w).
Proof.
  induction n as [|n IH]; intros fuel w Hbusy Hidle Hfuel;
    (destruct fuel as [|fuel]; [lia|]);
    simpl; rewrite count_pulses_ms_complete;
    destruct (window (timer d) 10 w) as [cnt w'] eqn:E; simpl.
  - simpl in Hidle. rewrite E in Hidle. simpl in Hidle. subst cnt. reflexivity.
  - pose proof (Hbusy O ltac:(lia)) as H0. simpl in H0. rewrite E in H0.
    simpl in H0. apply Z.eqb_neq in H0. rewrite H0. simpl.
    rewrite (IH fuel w').
    + reflexivity.
    + intros k Hk. specialize (Hbusy (S k) ltac:(lia)).
      simpl in Hbusy. rewrite E in Hbusy. exact Hbusy.
    + simpl in Hidle. rewrite E in Hidle. exact Hidle.
    + lia.
Qed.

(** C7.  With all callbacks present, [lmt_init] runs one window of
    60 ms (stop, clear the count, start, wait 60 ms, stop, read the
    count) and nothing else; a count of zero gives
    [LMT_E_DEV_NOT_FOUND], any other count [LMT_OK].  What is left
    behind is the hardware as those six calls left it. *)
Theorem lmt_init_probe :
  forall w : world,
    let t := timer d in
    let w5 := fstop t (fdelay 60 (fstart t (fset t 0 (fstop t w)))) in
    let pulses := uint32 (fst (fget t w5)) in
    count_pulses_ms d 60 w = Ret (pulses, snd (fget t w5))
    /\ lmt_init (Some d) w
       = Ret (if pulses =? 0 then LMT_E_DEV_NOT_FOUND else LMT_OK,
              snd (fget t w5)).
Proof.
  intros w t w5 pulses.
  assert (Hw : window t 60 w = (pulses, snd (fget t w5))).
  { unfold window. fold w5. subst pulses. destruct (fget t w5). reflexivity. }
  split.
  - rewrite count_pulses_ms_complete. fold t. rewrite Hw. reflexivity.
  - unfold lmt_init. rewrite null_ptr_check_complete. simpl.
    rewrite count_pulses_ms_complete. fold t. rewrite Hw. simpl.
    destruct (pulses =? 0); reflexivity.
Qed.

(** C9.  Let the [k]-th window of 10 ms be the one run after [k] earlier
    ones.  If every such window counts pulses, [lmt_get_pulse_count] is
    still in its [while] loop after any number of iterations: it never
    returns.  If the windows before the [n]-th count pulses and the
    [n]-th counts none, the loop ends there; one window of 104 ms
    follows, and the call returns [LMT_E_DEV_NOT_FOUND], leaving
    [*pulses] alone, when that window counts nothing, and [LMT_OK] with
    the count stored in [*pulses] otherwise. *)
Theorem lmt_get_pulse_count_drain_measure :
  forall (pulses : option Z) (w : world),
    let t := timer d in
    let probe (k : nat) := fst (window t 10 (after_probes t k w)) in
    ((forall k : nat, probe k <> 0) ->
     forall fuel : nat,
       lmt_get_pulse_count fuel (Some d) pulses w = Spinning)
    /\ (forall n : nat,
          (forall k : nat, (k < n)%nat -> probe k <> 0) ->
          probe n = 0 ->
          forall fuel : nat,
            ((fuel <= n)%nat ->
             lmt_get_pulse_count fuel (Some d) pulses w = Spinning)
            /\ ((n < fuel)%nat ->
                let m := window t 104 (after_probes t (S n) w) in
                lmt_get_pulse_count fuel (Some d) pulses w
                = Ret (if fst m =? 0
                       then (LMT_E_DEV_NOT_FOUND, pulses, snd m)
                       else (LMT_OK, Some (fst m), snd m)))).
Proof.
  intros pulses w t probe.
  assert (Hspin : forall fuel : nat,
             (forall k : nat, (k < fuel)%nat -> probe k <> 0) ->
             lmt_get_pulse_count fuel (Some d) pulses w = Spinning).
  { intros fuel H. unfold lmt_get_pulse_count.
    rewrite null_ptr_check_complete. simpl.
    rewrite (drain_busy fuel w H). reflexivity. }
  split.
  - intros H fuel. apply Hspin. intros k _. apply H.
  - intros n Hbusy Hidle fuel. split.
    + intros Hle. apply Hspin. intros k Hk. apply Hbusy. lia.
    + intros Hlt m. unfold lmt_get_pulse_count.
      rewrite null_ptr_check_complete.
      cbn [negb lmt_status_eqb callee bind].
      rewrite (drain_idle n fuel w Hbusy Hidle Hlt).
      cbn [bind]. rewrite count_pulses_ms_complete. cbn [bind].
      fold t. fold m.
      destruct m as [c w']. cbn [fst snd]. destruct (c =? 0); reflexivity.
Qed.

End Complete.


Lemma lmt_init_null_ptr_witness :
  null_ptr_check
    (Some {| timer := 1; start_timer := Some (fun _ (w : unit) => w);
             stop_timer := Some (fun _ w => w);
             set_timer_cnt := Some (fun _ _ w => w);
             get_timer_cnt := Some (fun _ w => (7, w));
             delay_ms := None |}) = LMT_E_NULL_PTR
  /\ lmt_init
       (Some {| timer := 1; start_timer := Some (fun _ (w : unit) => w);
                stop_timer := Some (fun _ w => w);
                set_timer_cnt := Some (fun _ _ w => w);
                get_timer_cnt := Some (fun _ w => (7, w));
                delay_ms := None |}) tt = Ret (LMT_E_NULL_PTR, tt).
Proof.
  apply lmt_init_null_ptr. right. eexists. split; [reflexivity|].
  do 4 right. reflexivity.
Defined.

(** On the bench, with a sensor that counts 5 pulses: the six calls of
    one window of 60 ms, in order, and [LMT_OK]. *)
Lemma lmt_init_probe_witness :
  count_pulses_ms bench_dev 60 {| calls := []; script := [5] |}
  = Ret (5, {| calls := [CallGetCnt 1; CallStop 1; CallDelay 60; CallStart 1;
                          CallSetCnt 1 0; CallStop 1];
               script := [] |})
  /\ lmt_init (Some bench_dev) {| calls := []; script := [5] |}
     = Ret (LMT_OK,
            {| calls := [CallGetCnt 1; CallStop 1; CallDelay 60; CallStart 1;
                         CallSetCnt 1 0; CallStop 1];
               script := [] |}).
Proof.
  exact (lmt_init_probe bench bench_dev _ _ _ _ _
           eq_refl eq_refl eq_refl eq_refl eq_refl
           {| calls := []; script := [5] |}).
Defined.

(** The sensor that never idles keeps the call in its loop; on the
    bench, a sensor seen pulsing in the first window and idle in the
    second is measured once, over 104 ms. *)
Lemma lmt_get_pulse_count_drain_measure_witness :
  (forall fuel : nat, lmt_get_pulse_count fuel (Some busy_dev) None tt = Spinning)
  /\ lmt_get_pulse_count 1 (Some bench_dev) None
       {| calls := []; script := [3; 0; 1762] |} = Spinning
  /\ lmt_get_pulse_count 2 (Some bench_dev) None
       {| calls := []; script := [3; 0; 1762] |}
     = Ret (LMT_OK, Some 1762,
            {| calls := [CallGetCnt 1; CallStop 1; CallDelay 104; CallStart 1;
                         CallSetCnt 1 0; CallStop 1;
                         CallGetCnt 1; CallStop 1; CallDelay 10; CallStart 1;
                         CallSetCnt 1 0; CallStop 1;
                         CallGetCnt 1; CallStop 1; CallDelay 10; CallStart 1;
                         CallSetCnt 1 0; CallStop 1];
               script := [] |}).
Proof.
  split; [|split].
  - apply (proj1 (lmt_get_pulse_count_drain_measure unit busy_dev _ _ _ _ _
                    eq_refl eq_refl eq_refl eq_refl eq_refl None tt)).
    intros k. discriminate.
  - apply (proj2 (lmt_get_pulse_count_drain_measure bench bench_dev _ _ _ _ _
                    eq_refl eq_refl eq_refl eq_refl eq_refl None
                    {| calls := []; script := [3; 0; 1762] |}) 1%nat).
    + intros [|k] Hk; [discriminate | lia].
    + reflexivity.
    + apply le_n.
  - apply (proj2 (lmt_get_pulse_count_drain_measure bench bench_dev _ _ _ _ _
                    eq_refl eq_refl eq_refl eq_refl eq_refl None
                    {| calls := []; script := [3; 0; 1762] |}) 1%nat).
    + intros [|k] Hk; [discriminate | lia].
    + reflexivity.
    + apply le_n.
Defined.

(** ** Reading a temperature *)

(** The composition, as far as the acquisition goes.
    [lmt_get_temperature] runs [lmt_get_pulse_count] once and then the
    conversion.  A status other than [LMT_OK] from the acquisition is
    returned as it is, with the hardware as the acquisition left it and
    [*temp] untouched; whenever the call reports a failure, it is that
    of the acquisition.  On [LMT_OK] the count is not zero and [*temp]
    receives its conversion, which has no status to report. *)
Theorem lmt_get_temperature_composition :
  forall (world : Type) (fuel : nat) (dev : option (lmt01_dev world))
         (temp : option spec_float) (type : lmt_conv_t) (w : world),
    (forall (st : lmt_status_t) (cell : option Z) (w' : world),
        lmt_get_pulse_count fuel dev None w = Ret (st, cell, w') ->
        st <> LMT_OK ->
        lmt_get_temperature fuel dev temp type w = Ret (st, temp, w'))
    /\ (forall (cell : option Z) (w' : world),
          lmt_get_pulse_count fuel dev None w = Ret (LMT_OK, cell, w') ->
          exists p : Z,
            cell = Some p /\ p <> 0
            /\ lmt_get_temperature fuel dev temp type w
               = (t <- lmt_pulses_to_temperature p type ;;
                  Ret (LMT_OK, Some t, w')))
    /\ (forall (st : lmt_status_t) (temp' : option spec_float) (w' : world),
          lmt_get_temperature fuel dev temp type w = Ret (st, temp', w') ->
          st <> LMT_OK ->
          temp' = temp
          /\ exists cell : option Z,
              lmt_get_pulse_count fuel dev None w = Ret (st, cell, w'))
    /\ (lmt_get_pulse_count fuel dev None w = Spinning ->
        lmt_get_temperature fuel dev temp type w = Spinning).
Proof.
  intros world fuel dev temp type w.
  assert (Hok : forall (cell : option Z) (w' : world),
             lmt_get_pulse_count fuel dev None w = Ret (LMT_OK, cell, w') ->
             exists p : Z, cell = Some p /\ p <> 0).
  { intros cell w' H. unfold lmt_get_pulse_count in H.
    destruct (negb _); [discriminate|].
    destruct (callee dev) as [d| |]; try discriminate. cbn [bind] in H.
    destruct (drain fuel d w) as [w1| |]; try discriminate. cbn [bind] in H.
    destruct (count_pulses_ms d 104 w1) as [[c w2]| |]; try discriminate.
    cbn [bind] in H. destruct (Z.eqb_spec c 0); [discriminate|].
    injection H as <- _. exists c. auto. }
  assert (Hfail : forall (st : lmt_status_t) (temp' : option spec_float)
                         (w' : world),
             lmt_get_temperature fuel dev temp type w = Ret (st, temp', w') ->
             st <> LMT_OK ->
             temp' = temp
             /\ lmt_get_pulse_count fuel dev None w
                = Ret (st, None, w')
             \/ exists p : Z,
                  lmt_get_pulse_count fuel dev None w = Ret (st, Some p, w')
                  /\ temp' = temp).
  { intros st temp' w' H Hst. unfold lmt_get_temperature in H.
    destruct (lmt_get_pulse_count fuel dev None w) as [[[st0 cell] w0]| |];
      try discriminate.
    cbn [bind] in H.
    destruct st0; cbn [negb lmt_status_eqb] in H;
      try (injection H as <- <- <-;
           destruct cell as [p|]; [right; exists p | left]; auto).
    destruct cell as [p|]; [|discriminate]. cbn [bind] in H.
    destruct (lmt_pulses_to_temperature p type); try discriminate.
    cbn [bind] in H. injection H as <- _ _. contradiction. }
  split; [|split; [|split]].
  - intros st cell w' H Hst. unfold lmt_get_temperature. rewrite H.
    cbn [bind]. destruct st; try reflexivity. contradiction.
  - intros cell w' H. destruct (Hok cell w' H) as (p & -> & Hp).
    exists p. repeat split; try assumption.
    unfold lmt_get_temperature. rewrite H. reflexivity.
  - intros st temp' w' H Hst.
    destruct (Hfail st temp' w' H Hst) as [[-> H'] | (p & H' & ->)];
      (split; [reflexivity | eexists; exact H']).
  - intros H. unfold lmt_get_temperature. rewrite H. reflexivity.
Qed.

(** On the bench: a sensor that stays silent makes the reading fail
    with [LMT_E_DEV_NOT_FOUND] and the caller's 20.0 stays where it was;
    a sensor idle in the first window that then sends 1762 pulses is read
    as 60.0 by the table. *)
Lemma lmt_get_temperature_composition_witness :
  lmt_get_temperature 1 (Some bench_dev) (Some (Single.of_Z 20)) CONV_TYPE_LUT
    {| calls := []; script := [] |}
  = Ret (LMT_E_DEV_NOT_FOUND, Some (Single.of_Z 20),
         {| calls := [CallGetCnt 1; CallStop 1; CallDelay 104; CallStart 1;
                      CallSetCnt 1 0; CallStop 1;
                      CallGetCnt 1; CallStop 1; CallDelay 10; CallStart 1;
                      CallSetCnt 1 0; CallStop 1];
            script := [] |})
  /\ exists p : Z,
      Some 1762 = Some p /\ p <> 0
      /\ lmt_get_temperature 1 (Some bench_dev) (Some (Single.of_Z 20))
           CONV_TYPE_LUT {| calls := []; script := [0; 1762] |}
         = (t <- lmt_pulses_to_temperature p CONV_TYPE_LUT ;;
            Ret (LMT_OK, Some t,
                 {| calls := [CallGetCnt 1; CallStop 1; CallDelay 104;
                              CallStart 1; CallSetCnt 1 0; CallStop 1;
                              CallGetCnt 1; CallStop 1; CallDelay 10;
                              CallStart 1; CallSetCnt 1 0; CallStop 1];
                    script := [] |})).
Proof.
  split.
  - apply (proj1 (lmt_get_temperature_composition bench 1 (Some bench_dev)
                    (Some (Single.of_Z 20)) CONV_TYPE_LUT
                    {| calls := []; script := [] |}) LMT_E_DEV_NOT_FOUND None).
    + reflexivity.
    + discriminate.
  - apply (proj1 (proj2 (lmt_get_temperature_composition bench 1
                           (Some bench_dev) (Some (Single.of_Z 20))
                           CONV_TYPE_LUT
                           {| calls := []; script := [0; 1762] |}))).
    reflexivity.
Defined.

(** C8 (the code at the failing input).  On the bench, a sensor idle in
    the first window that then sends 3219 pulses, read by the table
    with 20.0 in [*temp].  The acquisition succeeds; the conversion of
    its count reads outside [lut]; nothing stands between the
    conversion and the store into [*temp], so the call does not come
    back with a failure and [*temp] unchanged: its behaviour is
    undefined. *)
Theorem lmt_get_temperature_off_table :
  lmt_get_pulse_count 1 (Some bench_dev) None
    {| calls := []; script := [0; 3219] |}
  = Ret (LMT_OK, Some 3219,
         {| calls := [CallGetCnt 1; CallStop 1; CallDelay 104; CallStart 1;
                      CallSetCnt 1 0; CallStop 1;
                      CallGetCnt 1; CallStop 1; CallDelay 10; CallStart 1;
                      CallSetCnt 1 0; CallStop 1];
            script := [] |})
  /\ lmt_pulses_to_temperature 3219 CONV_TYPE_LUT = Undefined OutOfBounds
  /\ lmt_get_temperature 1 (Some bench_dev) (Some (Single.of_Z 20))
       CONV_TYPE_LUT {| calls := []; script := [0; 3219] |}
     = Undefined OutOfBounds
  /\ (forall (st : lmt_status_t) (w' : bench),
        lmt_get_temperature 1 (Some bench_dev) (Some (Single.of_Z 20))
          CONV_TYPE_LUT {| calls := []; script := [0; 3219] |}
        <> Ret (st, Some (Single.of_Z 20), w')).
Proof.
  split; [reflexivity|]. split; [reflexivity|]. split; [reflexivity|].
  intros st w' H. discriminate H.
Qed.

(** * Further properties *)

(** ** The table conversion inside the table *)

Lemma lut_scan_stop :
  forall (n i : nat) (pulses lo hi : Z),
    lut_at i 1 = Ret lo ->
    lut_at (i + 1) 1 = Ret hi ->
    uint32 lo <= pulses <= uint32 hi ->
    lut_scan (S n) i pulses = Ret i.
Proof.
  intros n i pulses lo hi Hlo Hhi [H1 H2]. simpl. rewrite Hlo, Hhi. simpl.
  destruct (Z.geb_spec pulses (uint32 lo)); [|lia].
  destruct (Z.leb_spec pulses (uint32 hi)); [reflexivity | lia].
Qed.

(** The scan stops at row [i] between whose pulses and those of the
    next row [pulses] lies. *)
Ltac scan_stop i p0 p1 t0 t1 :=
  exists i, p0, p1, t0, t1;
  split;
  [ change LEN_lut with 21%nat; repeat scan_skip;
    apply lut_scan_stop with (lo := p0) (hi := p1);
    [reflexivity | reflexivity | uint32_bound]
  | repeat split; try reflexivity; lia ].

(** From 26 to 3218 pulses the scan ends on a row of the table that has
    a successor: the first row, or the row whose pulses are below
    [pulses] while those of the next are not. *)
Lemma lut_scan_bracket :
  forall pulses : Z,
    26 <= pulses <= 3218 ->
    exists (i : nat) (lo hi tlo thi : Z),
      lut_scan LEN_lut 0 pulses = Ret i
      /\ nth_error lut i = Some (tlo, lo)
      /\ nth_error lut (i + 1) = Some (thi, hi)
      /\ lo <= pulses <= hi
      /\ (i = O \/ lo < pulses).
Proof.
  intros pulses H.
  destruct (Z.le_gt_cases pulses 181); [scan_stop 0%nat 26 181 (-50) (-40)|].
  destruct (Z.le_gt_cases pulses 338); [scan_stop 1%nat 181 338 (-40) (-30)|].
  destruct (Z.le_gt_cases pulses 494); [scan_stop 2%nat 338 494 (-30) (-20)|].
  destruct (Z.le_gt_cases pulses 651); [scan_stop 3%nat 494 651 (-20) (-10)|].
  destruct (Z.le_gt_cases pulses 808); [scan_stop 4%nat 651 808 (-10) 0|].
  destruct (Z.le_gt_cases pulses 966); [scan_stop 5%nat 808 966 0 10|].
  destruct (Z.le_gt_cases pulses 1125); [scan_stop 6%nat 966 1125 10 20|].
  destruct (Z.le_gt_cases pulses 1284); [scan_stop 7%nat 1125 1284 20 30|].
  destruct (Z.le_gt_cases pulses 1443); [scan_stop 8%nat 1284 1443 30 40|].
  destruct (Z.le_gt_cases pulses 1602); [scan_stop 9%nat 1443 1602 40 50|].
  destruct (Z.le_gt_cases pulses 1762); [scan_stop 10%nat 1602 1762 50 60|].
  destruct (Z.le_gt_cases pulses 1923); [scan_stop 11%nat 1762 1923 60 70|].
  destruct (Z.le_gt_cases pulses 2084); [scan_stop 12%nat 1923 2084 70 80|].
  destruct (Z.le_gt_cases pulses 2245); [scan_stop 13%nat 2084 2245 80 90|].
  destruct (Z.le_gt_cases pulses 2407); [scan_stop 14%nat 2245 2407 90 100|].
  destruct (Z.le_gt_cases pulses 2569); [scan_stop 15%nat 2407 2569 100 110|].
  destruct (Z.le_gt_cases pulses 2731); [scan_stop 16%nat 2569 2731 110 120|].
  destruct (Z.le_gt_cases pulses 2893); [scan_stop 17%nat 2731 2893 120 130|].
  destruct (Z.le_gt_cases pulses 3057); [scan_stop 18%nat 2893 3057 130 140|].
  scan_stop 19%nat 3057 3218 140 150.
Qed.

Lemma lut_at_row :
  forall (i : nat) (t p : Z),
    nth_error lut i = Some (t, p) -> lut_at i 0 = Ret t /\ lut_at i 1 = Ret p.
Proof.
  intros i t p H. unfold lut_at. rewrite H. split; reflexivity.
Qed.

(** X1.  From 26 to 3218 pulses the table conversion stays inside [lut]
    and returns [map] over two adjacent rows that bracket the count;
    a count that is the pulses of a row other than the first is mapped
    over the pair below it. *)
Theorem lut_conversion_in_table :
  forall pulses : Z,
    26 <= pulses <= 3218 ->
    exists (i : nat) (lo hi tlo thi : Z),
      nth_error lut i = Some (tlo, lo)
      /\ nth_error lut (i + 1) = Some (thi, hi)
      /\ lo <= pulses <= hi
      /\ (i = O \/ lo < pulses)
      /\ lmt_pulses_to_temperature pulses CONV_TYPE_LUT
         = Ret (Single.of_double
                  (map (Double.of_Z pulses) (Double.of_Z lo) (Double.of_Z hi)
                       (Double.of_Z tlo) (Double.of_Z thi))).
Proof.
  intros pulses H.
  destruct (lut_scan_bracket pulses H)
    as (i & lo & hi & tlo & thi & Hscan & Hi & Hi1 & Hb & Hfirst).
  exists i, lo, hi, tlo, thi. repeat split; try assumption; try lia.
  destruct (lut_at_row i tlo lo Hi) as [Ht Hp].
  destruct (lut_at_row (i + 1) thi hi Hi1) as [Ht1 Hp1].
  unfold lmt_pulses_to_temperature.
  destruct (Z.eqb_spec pulses 0); [lia|].
  change (CONV_TYPE_LUT =? CONV_TYPE_EQU) with false.
  change (CONV_TYPE_LUT =? CONV_TYPE_LUT) with true.
  rewrite Hscan. cbn [bind]. rewrite Hp, Hp1, Ht, Ht1. reflexivity.
Qed.

Lemma lut_conversion_in_table_witness :
  exists (i : nat) (lo hi tlo thi : Z),
    nth_error lut i = Some (tlo, lo)
    /\ nth_error lut (i + 1) = Some (thi, hi)
    /\ lo <= 966 <= hi
    /\ (i = O \/ lo < 966)
    /\ lmt_pulses_to_temperature 966 CONV_TYPE_LUT
       = Ret (Single.of_double
                (map (Double.of_Z 966) (Double.of_Z lo) (Double.of_Z hi)
                     (Double.of_Z tlo) (Double.of_Z thi))).
Proof.
  apply (lut_conversion_in_table 966). lia.
Defined.

Lemma lut_defined_in_table :
  forall pulses : Z,
    26 <= pulses <= 3218 ->
    exists t : spec_float, lmt_pulses_to_temperature pulses CONV_TYPE_LUT = Ret t.
Proof.
  intros pulses H.
  destruct (lut_scan_bracket pulses H)
    as (i & lo & hi & tlo & thi & Hscan & Hi & Hi1 & _).
  destruct (lut_at_row i tlo lo Hi) as [Ht Hp].
  destruct (lut_at_row (i + 1) thi hi Hi1) as [Ht1 Hp1].
  unfold lmt_pulses_to_temperature.
  destruct (Z.eqb_spec pulses 0); [lia|].
  change (CONV_TYPE_LUT =? CONV_TYPE_EQU) with false.
  change (CONV_TYPE_LUT =? CONV_TYPE_LUT) with true.
  rewrite Hscan. cbn [bind]. rewrite Hp, Hp1, Ht, Ht1. eexists. reflexivity.
Qed.

(** X2.  The table conversion returns a value exactly for no pulse at all
    (the guard) and for 26 to 3218 pulses; for every other count it
    reads outside [lut]. *)
Theorem lut_conversion_defined_iff :
  forall pulses : Z,
    0 <= pulses < 2 ^ 32 ->
    ((exists t : spec_float,
         lmt_pulses_to_temperature pulses CONV_TYPE_LUT = Ret t)
     <-> pulses = 0 \/ 26 <= pulses <= 3218)
    /\ (lmt_pulses_to_temperature pulses CONV_TYPE_LUT = Undefined OutOfBounds
        <-> pulses <> 0 /\ (pulses < 26 \/ 3218 < pulses)).
Proof.
  intros pulses _.
  destruct (Z.eq_dec pulses 0) as [->|Hnz].
  { split; split.
    - auto.
    - intros _. eexists. reflexivity.
    - discriminate.
    - intros [H _]. contradiction. }
  assert (Hout : pulses < 26 \/ 3218 < pulses ->
                 lmt_pulses_to_temperature pulses CONV_TYPE_LUT
                 = Undefined OutOfBounds)
    by (apply lut_out_of_range; assumption).
  destruct (Z.lt_ge_cases pulses 26) as [Hlo|Hlo];
    [|destruct (Z.lt_ge_cases 3218 pulses) as [Hhi|Hhi]].
  - rewrite (Hout (or_introl Hlo)). split; split.
    + intros [t Ht]. discriminate.
    + lia.
    + lia.
    + reflexivity.
  - rewrite (Hout (or_intror Hhi)). split; split.
    + intros [t Ht]. discriminate.
    + lia.
    + lia.
    + reflexivity.
  - destruct (lut_defined_in_table pulses ltac:(lia)) as [t Ht].
    rewrite Ht. split; split.
    + lia.
    + intros _. exists t. reflexivity.
    + discriminate.
    + lia.
Qed.

Lemma lut_conversion_defined_iff_witness :
  ((exists t : spec_float,
       lmt_pulses_to_temperature 4095 CONV_TYPE_LUT = Ret t)
   <-> 4095 = 0 \/ 26 <= 4095 <= 3218)
  /\ (lmt_pulses_to_temperature 4095 CONV_TYPE_LUT = Undefined OutOfBounds
      <-> 4095 <> 0 /\ (4095 < 26 \/ 3218 < 4095)).
Proof.
  apply (lut_conversion_defined_iff 4095). lia.
Defined.

(** *** Checks over all the counts of the table *)

Lemma holds_from_sound :
  forall (f : Z -> bool) (n : nat) (p : Z),
    holds_from f n p = true ->
    forall q : Z, p <= q < p + Z.of_nat n -> f q = true.
Proof.
  intros f n. induction n as [|n IH]; intros p H q Hq; [lia|].
  simpl in H. apply andb_prop in H as [Hp Hn].
  destruct (Z.eq_dec q p) as [->|Hne]; [assumption|].
  apply (IH (p + 1) Hn). lia.
Qed.

(** [<] then [<=] on [float] gives [<]. *)
Lemma SFltb_leb_trans :
  forall a b c : spec_float,
    SFltb a b = true -> SFleb b c = true -> SFltb a c = true.
Proof.
  unfold SFltb, SFleb, SFcompare.
  intros [sa|sa| |sa ma ea] [sb|sb| |sb mb eb] [sc|sc| |sc mc ec];
    try destruct sa; try destruct sb; try destruct sc;
    try discriminate; try reflexivity; intros Hab Hbc.
  all: change (Pos.compare_cont Eq) with Pos.compare in *.
  all: destruct (Z.compare_spec ea eb); try discriminate;
       destruct (Z.compare_spec eb ec); try discriminate;
       destruct (Z.compare_spec ea ec); try reflexivity; try lia; subst.
  all: destruct (Pos.compare_spec ma mb); try discriminate;
       destruct (Pos.compare_spec mb mc); try discriminate;
       destruct (Pos.compare_spec ma mc); try reflexivity; try lia.
Qed.

Lemma lut_table_increasing : holds_from lut_increasing_at 3192 26 = true.
Proof. vm_compute. reflexivity. Qed.

Lemma lut_table_accurate :
  holds_from (lut_accurate_at (1 # 131072)) 3193 26 = true.
Proof. vm_compute. reflexivity. Qed.

Lemma lut_table_not_minus_one : holds_from lut_not_minus_one_at 3193 26 = true.
Proof. vm_compute. reflexivity. Qed.

Lemma methods_close_on_table :
  holds_from (methods_close_at (13 # 8)) 3193 26 = true.
Proof. vm_compute. reflexivity. Qed.

(** X3.  Over the whole span of the table the conversion is strictly
    increasing: more pulses, a higher temperature, also from one pair
    of rows to the next. *)
Theorem lut_strictly_increasing :
  forall p1 p2 : Z,
    26 <= p1 -> p1 < p2 -> p2 <= 3218 ->
    exists t1 t2 : spec_float,
      lmt_pulses_to_temperature p1 CONV_TYPE_LUT = Ret t1
      /\ lmt_pulses_to_temperature p2 CONV_TYPE_LUT = Ret t2
      /\ SFltb t1 t2 = true.
Proof.
  intros p1 p2 H1 H12 H2.
  pose proof (holds_from_sound _ _ _ lut_table_increasing p1 ltac:(lia)) as Hs.
  unfold lut_increasing_at in Hs.
  destruct (lmt_pulses_to_temperature p1 CONV_TYPE_LUT) as [a| |] eqn:Ea;
    try discriminate.
  destruct (lmt_pulses_to_temperature (p1 + 1) CONV_TYPE_LUT) as [b| |] eqn:Eb;
    try discriminate.
  apply andb_prop in Hs as [_ Hab].
  destruct (lut_monotonic_on_table (p1 + 1) p2 ltac:(lia) ltac:(lia) H2)
    as (b' & c & Hb' & Hc & _ & _ & Hbc).
  rewrite Eb in Hb'. injection Hb' as <-.
  exists a, c. repeat split; try assumption.
  exact (SFltb_leb_trans a b c Hab Hbc).
Qed.

Lemma lut_strictly_increasing_witness :
  exists t1 t2 : spec_float,
    lmt_pulses_to_temperature 180 CONV_TYPE_LUT = Ret t1
    /\ lmt_pulses_to_temperature 182 CONV_TYPE_LUT = Ret t2
    /\ SFltb t1 t2 = true.
Proof.
  apply (lut_strictly_increasing 180 182); lia.
Defined.

(** X4.  Between the pulses of two adjacent rows the table conversion
    stays between the temperatures of those rows; over the whole table,
    between -50 and 150. *)
Theorem lut_conversion_between_anchors :
  forall (i : nat) (tlo lo thi hi pulses : Z),
    nth_error lut i = Some (tlo, lo) ->
    nth_error lut (i + 1) = Some (thi, hi) ->
    lo <= pulses <= hi ->
    exists t : spec_float,
      lmt_pulses_to_temperature pulses CONV_TYPE_LUT = Ret t
      /\ SFleb (Single.of_Z tlo) t = true
      /\ SFleb t (Single.of_Z thi) = true
      /\ SFleb (Single.of_Z (-50)) t = true
      /\ SFleb t (Single.of_Z 150) = true.
Proof.
  intros i tlo lo thi hi pulses Hi Hi1 Hp.
  assert (Hrows : 26 <= lo /\ hi <= 3218
                  /\ lmt_pulses_to_temperature lo CONV_TYPE_LUT
                     = Ret (Single.of_Z tlo)
                  /\ lmt_pulses_to_temperature hi CONV_TYPE_LUT
                     = Ret (Single.of_Z thi)).
  { do 20 (destruct i as [|i];
           [injection Hi as <- <-; injection Hi1 as <- <-;
            repeat split; (lia || (vm_compute; reflexivity))|]).
    destruct i as [|i]; [discriminate Hi1|].
    simpl in Hi. destruct i; discriminate Hi. }
  destruct Hrows as (Hlo & Hhi & Elo & Ehi).
  destruct (lut_monotonic_on_table lo pulses ltac:(lia) ltac:(lia) ltac:(lia))
    as (a & t & Ha & Ht & _ & _ & Hat).
  destruct (lut_monotonic_on_table pulses hi ltac:(lia) ltac:(lia) ltac:(lia))
    as (t' & b & Ht' & Hb & _ & _ & Htb).
  destruct (lut_monotonic_on_table 26 pulses ltac:(lia) ltac:(lia) ltac:(lia))
    as (a0 & t0 & Ha0 & Ht0 & _ & _ & Hat0).
  destruct (lut_monotonic_on_table pulses 3218 ltac:(lia) ltac:(lia) ltac:(lia))
    as (t1 & b1 & Ht1 & Hb1 & _ & _ & Htb1).
  rewrite Ht in Ht', Ht0, Ht1.
  injection Ht' as <-. injection Ht0 as <-. injection Ht1 as <-.
  rewrite Elo in Ha. injection Ha as <-.
  rewrite Ehi in Hb. injection Hb as <-.
  change (lmt_pulses_to_temperature 26 CONV_TYPE_LUT)
    with (Ret (Single.of_Z (-50))) in Ha0. injection Ha0 as <-.
  change (lmt_pulses_to_temperature 3218 CONV_TYPE_LUT)
    with (Ret (Single.of_Z 150)) in Hb1. injection Hb1 as <-.
  exists t. auto.
Qed.

Lemma lut_conversion_between_anchors_witness :
  exists t : spec_float,
    lmt_pulses_to_temperature 700 CONV_TYPE_LUT = Ret t
    /\ SFleb (Single.of_Z (-10)) t = true
    /\ SFleb t (Single.of_Z 0) = true
    /\ SFleb (Single.of_Z (-50)) t = true
    /\ SFleb t (Single.of_Z 150) = true.
Proof.
  apply (lut_conversion_between_anchors 4 (-10) 651 0 808 700);
    try reflexivity. lia.
Defined.

(** X5.  From 26 to 3218 pulses, the [float] returned by the table
    conversion is within 2^-17 degree (1/131072) of the value of
    [map]'s formula in exact arithmetic over the rows the scan selects:
    the roundings of the [double] operations and of the conversion to
    [float] cost no more. *)
Theorem lut_conversion_accuracy :
  forall pulses : Z,
    26 <= pulses <= 3218 ->
    exists (i : nat) (lo hi tlo thi : Z) (t : spec_float),
      lut_scan LEN_lut 0 pulses = Ret i
      /\ nth_error lut i = Some (tlo, lo)
      /\ nth_error lut (i + 1) = Some (thi, hi)
      /\ lmt_pulses_to_temperature pulses CONV_TYPE_LUT = Ret t
      /\ (Qabs (SF2Q t
                - map_exact (inject_Z pulses) (inject_Z lo) (inject_Z hi)
                            (inject_Z tlo) (inject_Z thi))
          <= 1 # 131072)%Q.
Proof.
  intros pulses H.
  destruct (lut_scan_bracket pulses H)
    as (i & lo & hi & tlo & thi & Hscan & Hi & Hi1 & _).
  destruct (lut_at_row i tlo lo Hi) as [Ht Hp].
  destruct (lut_at_row (i + 1) thi hi Hi1) as [Ht1 Hp1].
  pose proof (holds_from_sound _ _ _ lut_table_accurate pulses ltac:(lia)) as Hc.
  unfold lut_accurate_at in Hc. rewrite Hscan, Hp, Hp1, Ht, Ht1 in Hc.
  destruct (lmt_pulses_to_temperature pulses CONV_TYPE_LUT) as [t| |];
    try discriminate.
  exists i, lo, hi, tlo, thi, t. repeat split; try assumption.
  apply Qle_bool_iff. exact Hc.
Qed.

Lemma lut_conversion_accuracy_witness :
  exists (i : nat) (lo hi tlo thi : Z) (t : spec_float),
    lut_scan LEN_lut 0 3201 = Ret i
    /\ nth_error lut i = Some (tlo, lo)
    /\ nth_error lut (i + 1) = Some (thi, hi)
    /\ lmt_pulses_to_temperature 3201 CONV_TYPE_LUT = Ret t
    /\ (Qabs (SF2Q t
              - map_exact (inject_Z 3201) (inject_Z lo) (inject_Z hi)
                          (inject_Z tlo) (inject_Z thi))
        <= 1 # 131072)%Q.
Proof.
  apply (lut_conversion_accuracy 3201). lia.
Defined.

(** X6.  From 26 to 3218 pulses the table conversion never returns a
    value that compares equal to -1, the value returned for no pulse:
    with the table, [-1] is told from a reading inside the table. *)
Theorem lut_conversion_never_minus_one :
  forall pulses : Z,
    26 <= pulses <= 3218 ->
    exists t : spec_float,
      lmt_pulses_to_temperature pulses CONV_TYPE_LUT = Ret t
      /\ SFeqb t (Single.of_Z (-1)) = false
      /\ lmt_pulses_to_temperature pulses CONV_TYPE_LUT
         <> lmt_pulses_to_temperature 0 CONV_TYPE_LUT.
Proof.
  intros pulses H.
  pose proof (holds_from_sound _ _ _ lut_table_not_minus_one pulses ltac:(lia))
    as Hc.
  unfold lut_not_minus_one_at in Hc.
  destruct (lmt_pulses_to_temperature pulses CONV_TYPE_LUT) as [t| |];
    try discriminate.
  apply negb_true_iff in Hc.
  exists t. repeat split; try assumption.
  intros E. change (lmt_pulses_to_temperature 0 CONV_TYPE_LUT)
    with (Ret (Single.of_Z (-1))) in E.
  injection E as ->. discriminate Hc.
Qed.

Lemma lut_conversion_never_minus_one_witness :
  exists t : spec_float,
    lmt_pulses_to_temperature 793 CONV_TYPE_LUT = Ret t
    /\ SFeqb t (Single.of_Z (-1)) = false
    /\ lmt_pulses_to_temperature 793 CONV_TYPE_LUT
       <> lmt_pulses_to_temperature 0 CONV_TYPE_LUT.
Proof.
  apply (lut_conversion_never_minus_one 793). lia.
Defined.

(** X7.  From 26 to 3218 pulses the two conversions of a count differ by
    at most 1.625 degree; that is their difference at 26 pulses. *)
Theorem conversions_within_1_625 :
  forall pulses : Z,
    26 <= pulses <= 3218 ->
    (exists t u : spec_float,
        lmt_pulses_to_temperature pulses CONV_TYPE_LUT = Ret t
        /\ lmt_pulses_to_temperature pulses CONV_TYPE_EQU = Ret u
        /\ (Qabs (SF2Q t - SF2Q u) <= 13 # 8)%Q)
    /\ (exists t u : spec_float,
           lmt_pulses_to_temperature 26 CONV_TYPE_LUT = Ret t
           /\ lmt_pulses_to_temperature 26 CONV_TYPE_EQU = Ret u
           /\ SF2Q u - SF2Q t == 13 # 8).
Proof.
  intros pulses H. split.
  - pose proof (holds_from_sound _ _ _ methods_close_on_table pulses ltac:(lia))
      as Hc.
    unfold methods_close_at in Hc.
    destruct (lmt_pulses_to_temperature pulses CONV_TYPE_LUT) as [t| |];
      try discriminate.
    destruct (lmt_pulses_to_temperature pulses CONV_TYPE_EQU) as [u| |];
      try discriminate.
    exists t, u. repeat split. apply Qle_bool_iff. exact Hc.
  - eexists. eexists. split; [reflexivity|]. split; reflexivity.
Qed.

Lemma conversions_within_1_625_witness :
  (exists t u : spec_float,
      lmt_pulses_to_temperature 1762 CONV_TYPE_LUT = Ret t
      /\ lmt_pulses_to_temperature 1762 CONV_TYPE_EQU = Ret u
      /\ (Qabs (SF2Q t - SF2Q u) <= 13 # 8)%Q)
  /\ (exists t u : spec_float,
         lmt_pulses_to_temperature 26 CONV_TYPE_LUT = Ret t
         /\ lmt_pulses_to_temperature 26 CONV_TYPE_EQU = Ret u
         /\ SF2Q u - SF2Q t == 13 # 8).
Proof.
  apply (conversions_within_1_625 1762). lia.
Defined.

(** ** The equation, further *)

(** Rounding keeps the sign. *)
Lemma binary_round_sign :
  forall (prec emax : Z) (s : bool) (m : positive) (e : Z),
    match binary_round prec emax s m e with
    | S754_zero s' | S754_infinity s' | S754_finite s' _ _ => s' = s
    | S754_nan => True
    end.
Proof.
  intros prec emax s m e. unfold binary_round.
  destruct (shl_align m e _) as [mz ez]. unfold binary_round_aux.
  destruct (shr_fexp prec emax (Zpos mz) ez loc_Exact) as [mrs e1].
  destruct (shr_fexp prec emax _ e1 loc_Exact) as [mrs2 e2].
  destruct (shr_m mrs2); [reflexivity | | exact I].
  destruct (Z.leb e2 (emax - prec)); reflexivity.
Qed.

(** Where [pulses - 800] fits 24 bits the [float] returned is worth the
    sixteenth of it. *)
Lemma equation_single_exact :
  forall pulses : Z,
    0 < pulses < 2 ^ 32 ->
    Z.abs (pulses - 800) < 2 ^ 24 ->
    exists t : spec_float,
      lmt_pulses_to_temperature pulses CONV_TYPE_EQU = Ret t
      /\ is_finite t = true
      /\ SF2Q t == inject_Z (pulses - 800) * (1 # 16).
Proof.
  intros pulses Hp H24.
  exists (Single.of_double (equation_double pulses)). split.
  { unfold lmt_pulses_to_temperature.
    destruct (Z.eqb_spec pulses 0); [lia | reflexivity]. }
  rewrite (equation_double_exact pulses Hp).
  destruct (pulses - 800) as [|q|q] eqn:Hq.
  - split; reflexivity.
  - assert (Zpos (digits2_pos q) <= 24) by (apply digits2_pos_le; lia).
    rewrite single_of_double_dyadic by lia.
    split; [reflexivity|]. rewrite SF2Q_dyadic by lia. reflexivity.
  - assert (Zpos (digits2_pos q) <= 24) by (apply digits2_pos_le; lia).
    rewrite single_of_double_dyadic by lia.
    split; [reflexivity|]. rewrite SF2Q_dyadic by lia. reflexivity.
Qed.

(** X8.  By the equation every pulse is worth exactly 1/16 degree: for
    two nonzero counts whose distance to 800 fits 24 bits, the values
    returned differ by the sixteenth of the difference of the counts,
    so that more pulses give a strictly higher temperature. *)
Theorem equation_sixteenth_per_pulse :
  forall p1 p2 : Z,
    0 < p1 < 2 ^ 32 -> Z.abs (p1 - 800) < 2 ^ 24 ->
    0 < p2 < 2 ^ 32 -> Z.abs (p2 - 800) < 2 ^ 24 ->
    exists t1 t2 : spec_float,
      lmt_pulses_to_temperature p1 CONV_TYPE_EQU = Ret t1
      /\ lmt_pulses_to_temperature p2 CONV_TYPE_EQU = Ret t2
      /\ SF2Q t2 - SF2Q t1 == inject_Z (p2 - p1) / 16
      /\ (p1 < p2 -> (SF2Q t1 < SF2Q t2)%Q).
Proof.
  intros p1 p2 Hp1 H1 Hp2 H2.
  destruct (equation_single_exact p1 Hp1 H1) as (t1 & E1 & _ & V1).
  destruct (equation_single_exact p2 Hp2 H2) as (t2 & E2 & _ & V2).
  exists t1, t2. repeat split; try assumption.
  - rewrite V1, V2. unfold Qeq, Qminus, Qplus, Qmult, Qdiv, Qopp, Qinv.
    simpl. lia.
  - intros Hlt. rewrite V1, V2. unfold Qlt, Qmult. simpl. lia.
Qed.

Lemma equation_sixteenth_per_pulse_witness :
  exists t1 t2 : spec_float,
    lmt_pulses_to_temperature 808 CONV_TYPE_EQU = Ret t1
    /\ lmt_pulses_to_temperature 4095 CONV_TYPE_EQU = Ret t2
    /\ SF2Q t2 - SF2Q t1 == inject_Z (4095 - 808) / 16
    /\ (808 < 4095 -> (SF2Q t1 < SF2Q t2)%Q).
Proof.
  apply (equation_sixteenth_per_pulse 808 4095); split; reflexivity.
Defined.

(** X9.  Among the nonzero counts of the 32-bit range, 784 is the only
    one whose conversion by the equation compares equal to -1, the
    value returned for no pulse. *)
Theorem equation_minus_one_iff :
  forall pulses : Z,
    0 < pulses < 2 ^ 32 ->
    exists t : spec_float,
      lmt_pulses_to_temperature pulses CONV_TYPE_EQU = Ret t
      /\ (SFeqb t (Single.of_Z (-1)) = true <-> pulses = 784).
Proof.
  intros pulses Hp.
  exists (Single.of_double (equation_double pulses)). split.
  { unfold lmt_pulses_to_temperature.
    destruct (Z.eqb_spec pulses 0); [lia | reflexivity]. }
  split; [|intros ->; reflexivity].
  rewrite (equation_double_exact pulses Hp).
  change (Single.of_Z (-1)) with (S754_finite true 8388608 (-23)).
  destruct (pulses - 800) as [|q|q] eqn:Hq.
  - discriminate.
  - unfold dyadic, Single.of_double.
    pose proof (binary_round_sign Single.prec Single.emax false
                  (Z.to_pos (Zpos q * 2 ^ (53 - Zpos (digits2_pos q))))
                  (-4 - (53 - Zpos (digits2_pos q)))) as Hs.
    destruct (binary_round _ _ _ _ _) as [s|s| |s m e];
      try subst s; discriminate.
  - assert (Hd : Zpos (digits2_pos q) <= 24) by (apply digits2_pos_le; lia).
    rewrite single_of_double_dyadic by lia.
    pose proof (dyadic_mantissa 24 q Hd) as Hm.
    unfold dyadic, SFeqb, SFcompare.
    set (m := Z.to_pos (Zpos q * 2 ^ (24 - Zpos (digits2_pos q)))) in *.
    change (Pos.compare_cont Eq) with Pos.compare.
    destruct (Z.compare_spec (-4 - (24 - Zpos (digits2_pos q))) (-23)) as [He|He|He];
      try discriminate.
    destruct (Pos.compare_spec m 8388608) as [Hm'|Hm'|Hm']; try discriminate.
    intros _.
    assert (Hdq : Zpos (digits2_pos q) = 5) by lia.
    rewrite Hdq, Hm' in Hm. change (2 ^ (24 - 5)) with 524288 in Hm. lia.
Qed.

Lemma equation_minus_one_iff_witness :
  exists t : spec_float,
    lmt_pulses_to_temperature 783 CONV_TYPE_EQU = Ret t
    /\ (SFeqb t (Single.of_Z (-1)) = true <-> 783 = 784).
Proof.
  apply (equation_minus_one_iff 783). split; reflexivity.
Defined.

(** ** [map] over an empty input range *)

(** X10.  When [in_min] and [in_max] are the same finite number, [map]
    divides by zero: whatever the other arguments, what it returns is
    an infinity or a NaN, never a finite number. *)
Theorem map_empty_range_not_finite :
  forall val in_min out_min out_max : spec_float,
    is_finite in_min = true ->
    is_finite (map val in_min in_min out_min out_max) = false.
Proof.
  intros val in_min out_min out_max Hfin. unfold map.
  assert (Hz : exists s : bool, Double.sub in_min in_min = S754_zero s).
  { destruct in_min as [s|s| |s m e]; try discriminate.
    - destruct s; eexists; reflexivity.
    - unfold Double.sub, SFsub. cbv zeta. rewrite Z.sub_diag.
      eexists. reflexivity. }
  destruct Hz as [s ->].
  destruct (Double.mul _ _) as [sn|sn| |sn mn en];
    destruct out_min as [so|so| |so mo eo];
    try destruct sn; try destruct s; try destruct so; reflexivity.
Qed.

Lemma map_empty_range_not_finite_witness :
  is_finite (map (Double.of_Z 30) (Double.of_Z 26) (Double.of_Z 26)
                 (Double.of_Z (-50)) (Double.of_Z (-40))) = false.
Proof.
  apply (map_empty_range_not_finite (Double.of_Z 30) (Double.of_Z 26)).
  reflexivity.
Defined.

(** ** The driver on any device *)

(** A device either fails the null check or has its five callbacks. *)
Lemma null_ptr_check_cases :
  forall (world : Type) (dev : option (lmt01_dev world)),
    null_ptr_check dev = LMT_E_NULL_PTR
    \/ exists (d : lmt01_dev world) (fstart fstop : Z -> world -> world)
              (fset : Z -> Z -> world -> world) (fget : Z -> world -> Z * world)
              (fdelay : Z -> world -> world),
        dev = Some d
        /\ start_timer d = Some fstart /\ stop_timer d = Some fstop
        /\ set_timer_cnt d = Some fset /\ get_timer_cnt d = Some fget
        /\ delay_ms d = Some fdelay.
Proof.
  intros world [[t [fstart|] [fstop|] [fset|] [fget|] [fdelay|]]|];
    try (left; reflexivity).
  right. eexists. exists fstart, fstop, fset, fget, fdelay.
  repeat split.
Qed.

Lemma uint32_range : forall z : Z, 0 <= uint32 z < 2 ^ 32.
Proof. intros z. unfold uint32. apply Z.mod_pos_bound. reflexivity. Qed.

(** The loop on a device with its five callbacks: still running, or
    left with the hardware in some state. *)
Lemma drain_cases :
  forall (world : Type) (d : lmt01_dev world)
         (fstart fstop : Z -> world -> world) (fset : Z -> Z -> world -> world)
         (fget : Z -> world -> Z * world) (fdelay : Z -> world -> world),
    start_timer d = Some fstart -> stop_timer d = Some fstop ->
    set_timer_cnt d = Some fset -> get_timer_cnt d = Some fget ->
    delay_ms d = Some fdelay ->
    forall (fuel : nat) (w : world),
      drain fuel d w = Spinning \/ exists w' : world, drain fuel d w = Ret w'.
Proof.
  intros world d fstart fstop fset fget fdelay H1 H2 H3 H4 H5 fuel.
  induction fuel as [|fuel IH]; intros w; [left; reflexivity|].
  simpl. rewrite (count_pulses_ms_complete world d _ _ _ _ _ H1 H2 H3 H4 H5).
  cbn [bind].
  destruct (window fstart fstop fset fget fdelay (timer d) 10 w) as [c w1].
  destruct (c =? 0); cbn [negb].
  - right. exists w1. reflexivity.
  - apply IH.
Qed.

(** What [lmt_get_pulse_count] can come to. *)
Lemma lmt_get_pulse_count_cases :
  forall (world : Type) (fuel : nat) (dev : option (lmt01_dev world))
         (pulses : option Z) (w : world),
    lmt_get_pulse_count fuel dev pulses w = Spinning
    \/ lmt_get_pulse_count fuel dev pulses w = Ret (LMT_E_NULL_PTR, pulses, w)
    \/ (exists w' : world,
           lmt_get_pulse_count fuel dev pulses w
           = Ret (LMT_E_DEV_NOT_FOUND, pulses, w'))
    \/ (exists (c : Z) (w' : world),
           lmt_get_pulse_count fuel dev pulses w = Ret (LMT_OK, Some c, w')
           /\ 0 < c < 2 ^ 32).
Proof.
  intros world fuel dev pulses w. unfold lmt_get_pulse_count.
  destruct (null_ptr_check_cases world dev)
    as [E | (d & fstart & fstop & fset & fget & fdelay
             & -> & H1 & H2 & H3 & H4 & H5)].
  { rewrite E. right. left. reflexivity. }
  rewrite (null_ptr_check_complete world d _ _ _ _ _ H1 H2 H3 H4 H5).
  cbn [negb lmt_status_eqb callee bind].
  destruct (drain_cases world d _ _ _ _ _ H1 H2 H3 H4 H5 fuel w)
    as [-> | [w1 ->]]; [left; reflexivity|].
  cbn [bind].
  rewrite (count_pulses_ms_complete world d _ _ _ _ _ H1 H2 H3 H4 H5).
  cbn [bind]. unfold window.
  destruct (fget _ _) as [cnt w2].
  pose proof (uint32_range cnt).
  destruct (Z.eqb_spec (uint32 cnt) 0).
  - right. right. left. exists w2. reflexivity.
  - right. right. right. exists (uint32 cnt), w2. split; [reflexivity | lia].
Qed.

(** X11.  [lmt_init] always returns, whatever is missing from the device:
    it makes no call through a null pointer and has no loop.  The status
    is [LMT_OK], [LMT_E_NULL_PTR] or [LMT_E_DEV_NOT_FOUND], never
    [LMT_E_TIMEOUT], and with [LMT_E_NULL_PTR] the hardware was not
    touched. *)
Theorem lmt_init_always_returns :
  forall (world : Type) (dev : option (lmt01_dev world)) (w : world),
    exists (st : lmt_status_t) (w' : world),
      lmt_init dev w = Ret (st, w')
      /\ (st = LMT_OK \/ st = LMT_E_NULL_PTR \/ st = LMT_E_DEV_NOT_FOUND)
      /\ (st = LMT_E_NULL_PTR -> w' = w).
Proof.
  intros world dev w. unfold lmt_init.
  destruct (null_ptr_check_cases world dev)
    as [E | (d & fstart & fstop & fset & fget & fdelay
             & -> & H1 & H2 & H3 & H4 & H5)].
  { rewrite E. exists LMT_E_NULL_PTR, w. auto. }
  rewrite (null_ptr_check_complete world d _ _ _ _ _ H1 H2 H3 H4 H5).
  cbn [negb lmt_status_eqb callee bind].
  rewrite (count_pulses_ms_complete world d _ _ _ _ _ H1 H2 H3 H4 H5).
  cbn [bind].
  destruct (window fstart fstop fset fget fdelay (timer d) 60 w) as [c w1].
  destruct (c =? 0).
  - exists LMT_E_DEV_NOT_FOUND, w1. repeat split; auto. discriminate.
  - exists LMT_OK, w1. repeat split; auto. discriminate.
Qed.

(** X12.  The two reading functions check the device as [lmt_init] does:
    with a null device or a null callback they return
    [LMT_E_NULL_PTR] at once, whatever the iteration budget, and leave
    the hardware and the caller's [*pulses] or [*temp] as they were. *)
Theorem readings_null_ptr :
  forall (world : Type) (fuel : nat) (dev : option (lmt01_dev world))
         (pulses : option Z) (temp : option spec_float) (type : lmt_conv_t)
         (w : world),
    (dev = None
     \/ exists d : lmt01_dev world,
         dev = Some d
         /\ (start_timer d = None \/ stop_timer d = None
             \/ set_timer_cnt d = None \/ get_timer_cnt d = None
             \/ delay_ms d = None)) ->
    lmt_get_pulse_count fuel dev pulses w = Ret (LMT_E_NULL_PTR, pulses, w)
    /\ lmt_get_temperature fuel dev temp type w = Ret (LMT_E_NULL_PTR, temp, w).
Proof.
  intros world fuel dev pulses temp type w H.
  assert (Hc : null_ptr_check dev = LMT_E_NULL_PTR).
  { destruct H as [-> | (d & -> & H)]; [reflexivity|].
    unfold null_ptr_check.
    destruct H as [H | [H | [H | [H | H]]]]; rewrite H; simpl;
      rewrite ?orb_true_r; reflexivity. }
  unfold lmt_get_temperature, lmt_get_pulse_count. rewrite Hc.
  split; reflexivity.
Qed.

Lemma readings_null_ptr_witness :
  lmt_get_pulse_count 0 (@None (lmt01_dev unit)) (Some 7) tt
  = Ret (LMT_E_NULL_PTR, Some 7, tt)
  /\ lmt_get_temperature 0 (@None (lmt01_dev unit)) None CONV_TYPE_LUT tt
     = Ret (LMT_E_NULL_PTR, None, tt).
Proof.
  apply readings_null_ptr. left. reflexivity.
Defined.

Lemma conversion_undefined :
  forall (pulses : Z) (type : lmt_conv_t) (u : undefined_behaviour),
    lmt_pulses_to_temperature pulses type = Undefined u ->
    u = OutOfBounds /\ type = CONV_TYPE_LUT
    /\ pulses <> 0 /\ (pulses < 26 \/ 3218 < pulses).
Proof.
  intros pulses type u H.
  destruct (Z.eq_dec pulses 0) as [->|Hnz]; [discriminate H|].
  destruct (Z.eq_dec type CONV_TYPE_EQU) as [->|He].
  { unfold lmt_pulses_to_temperature in H.
    apply Z.eqb_neq in Hnz. rewrite Hnz in H. discriminate H. }
  destruct (Z.eq_dec type CONV_TYPE_LUT) as [->|Hl].
  - destruct (Z.lt_ge_cases pulses 26) as [Hlo|Hlo];
      [|destruct (Z.lt_ge_cases 3218 pulses) as [Hhi|Hhi]].
    + rewrite (lut_out_of_range pulses Hnz (or_introl Hlo)) in H.
      injection H as <-. auto.
    + rewrite (lut_out_of_range pulses Hnz (or_intror Hhi)) in H.
      injection H as <-. auto.
    + destruct (lut_defined_in_table pulses ltac:(lia)) as [t Ht].
      rewrite Ht in H. discriminate H.
  - unfold lmt_pulses_to_temperature in H.
    apply Z.eqb_neq in Hnz, He, Hl. rewrite Hnz, He, Hl in H. discriminate H.
Qed.

(** *** With the output pointer *)

(** With a pointer to an object the functions above are the ones
    called. *)
Lemma lmt_get_pulse_count_at_object :
  forall (world : Type) (fuel : nat) (dev : option (lmt01_dev world))
         (cell : option Z) (w : world),
    lmt_get_pulse_count_at fuel dev (Some cell) w
    = ('(st, c, w') <- lmt_get_pulse_count fuel dev cell w ;;
       Ret (st, Some c, w')).
Proof.
  intros world fuel dev cell w.
  unfold lmt_get_pulse_count_at, lmt_get_pulse_count.
  destruct (negb _); [reflexivity|].
  destruct (callee dev) as [d| |]; try reflexivity. cbn [bind].
  destruct (drain fuel d w) as [w1| |]; try reflexivity. cbn [bind].
  destruct (count_pulses_ms d 104 w1) as [[c w2]| |]; try reflexivity.
  cbn [bind]. destruct (c =? 0); reflexivity.
Qed.

Lemma lmt_get_temperature_at_object :
  forall (world : Type) (fuel : nat) (dev : option (lmt01_dev world))
         (cell : option spec_float) (type : lmt_conv_t) (w : world),
    lmt_get_temperature_at fuel dev (Some cell) type w
    = ('(st, c, w') <- lmt_get_temperature fuel dev cell type w ;;
       Ret (st, Some c, w')).
Proof.
  intros world fuel dev cell type w.
  unfold lmt_get_temperature_at, lmt_get_temperature.
  rewrite lmt_get_pulse_count_at_object.
  destruct (lmt_get_pulse_count fuel dev None w) as [[[st c] w1]| |];
    try reflexivity.
  cbn [bind]. destruct (negb _); [reflexivity|].
  destruct c as [p|]; [|reflexivity]. cbn [bind].
  destruct (lmt_pulses_to_temperature p type); reflexivity.
Qed.

(** With a null pointer the store is the one step that differs. *)
Lemma lmt_get_pulse_count_at_null :
  forall (world : Type) (fuel : nat) (dev : option (lmt01_dev world))
         (w : world),
    lmt_get_pulse_count_at fuel dev None w
    = match lmt_get_pulse_count fuel dev None w with
      | Ret (LMT_OK, _, _) => Undefined NullPointer
      | Ret (st, _, w') => Ret (st, None, w')
      | Undefined u => Undefined u
      | Spinning => Spinning
      end.
Proof.
  intros world fuel dev w.
  unfold lmt_get_pulse_count_at, lmt_get_pulse_count.
  destruct (negb _); [reflexivity|].
  destruct (callee dev) as [d| |]; try reflexivity. cbn [bind].
  destruct (drain fuel d w) as [w1| |]; try reflexivity. cbn [bind].
  destruct (count_pulses_ms d 104 w1) as [[c w2]| |]; try reflexivity.
  cbn [bind]. destruct (c =? 0); reflexivity.
Qed.

Lemma lut_scan_not_spinning :
  forall (n i : nat) (pulses : Z), lut_scan n i pulses <> Spinning.
Proof.
  induction n as [|n IH]; intros i pulses; [discriminate|].
  simpl. unfold lut_at.
  destruct (nth_error lut i) as [[t p]|]; [|discriminate]. cbn [bind].
  destruct (pulses >=? uint32 p); [|apply IH].
  destruct (nth_error lut (i + 1)) as [[t1 p1]|]; [|discriminate]. cbn [bind].
  destruct (pulses <=? uint32 p1); [discriminate | apply IH].
Qed.

(** The conversion has no loop that could fail to end. *)
Lemma conversion_not_spinning :
  forall (pulses : Z) (type : lmt_conv_t),
    lmt_pulses_to_temperature pulses type <> Spinning.
Proof.
  intros pulses type. unfold lmt_pulses_to_temperature.
  destruct (pulses =? 0); [discriminate|].
  destruct (type =? CONV_TYPE_EQU); [discriminate|].
  destruct (type =? CONV_TYPE_LUT); [|discriminate].
  pose proof (lut_scan_not_spinning LEN_lut 0 pulses) as Hs.
  destruct (lut_scan LEN_lut 0 pulses) as [i| |]; try discriminate;
    [|contradiction].
  cbn [bind]. unfold lut_at.
  destruct (nth_error lut i) as [[t p]|]; [|discriminate]. cbn [bind].
  destruct (nth_error lut (i + 1)) as [[t1 p1]|]; discriminate.
Qed.

(** X13.  [lmt_get_pulse_count] on any device, its [pulses] pointer
    null or pointing to an object.  Its one undefined behaviour is the
    store through a null [pulses], reached exactly when the call made
    with a pointer to an object returns [LMT_OK]: no call goes through
    a null callback.  When it returns, the status is [LMT_OK],
    [LMT_E_NULL_PTR] or [LMT_E_DEV_NOT_FOUND], never [LMT_E_TIMEOUT];
    with [LMT_OK] the count stored is nonzero; with any other status
    nothing was stored, and with [LMT_E_NULL_PTR] the hardware was not
    touched. *)
Theorem lmt_get_pulse_count_at_outcomes :
  forall (world : Type) (fuel : nat) (dev : option (lmt01_dev world))
         (pulses : option (option Z)) (w : world),
    (forall u : undefined_behaviour,
        lmt_get_pulse_count_at fuel dev pulses w = Undefined u
        <-> u = NullPointer /\ pulses = None
            /\ exists (c : Z) (w' : world),
                lmt_get_pulse_count fuel dev None w = Ret (LMT_OK, Some c, w'))
    /\ (forall (st : lmt_status_t) (cell : option (option Z)) (w' : world),
          lmt_get_pulse_count_at fuel dev pulses w = Ret (st, cell, w') ->
          st <> LMT_E_TIMEOUT
          /\ (st = LMT_OK ->
              exists c : Z, cell = Some (Some c) /\ 0 < c < 2 ^ 32)
          /\ (st <> LMT_OK -> cell = pulses)
          /\ (st = LMT_E_NULL_PTR -> w' = w)).
Proof.
  intros world fuel dev pulses w.
  destruct pulses as [content|].
  - rewrite lmt_get_pulse_count_at_object.
    destruct (lmt_get_pulse_count_cases world fuel dev content w)
      as [E | [E | [[w1 E] | (c & w1 & E & Hc)]]]; rewrite E; cbn [bind];
      (split;
       [ intros u; split;
         [ intros H; discriminate H | intros (_ & H & _); discriminate H ]
       | intros st cell w' H; try discriminate H; injection H as <- <- <-;
         repeat split; try discriminate; try contradiction; auto ]).
    intros _. exists c. auto.
  - rewrite lmt_get_pulse_count_at_null.
    destruct (lmt_get_pulse_count_cases world fuel dev None w)
      as [E | [E | [[w1 E] | (c & w1 & E & Hc)]]]; rewrite E.
    + split; [|intros st cell w' H; discriminate H].
      intros u; split; [intros H; discriminate H|].
      intros (_ & _ & c & w' & H). discriminate H.
    + split.
      * intros u; split; [intros H; discriminate H|].
        intros (_ & _ & c & w' & H). discriminate H.
      * intros st cell w' H; injection H as <- <- <-.
        repeat split; try discriminate; try contradiction; auto.
    + split.
      * intros u; split; [intros H; discriminate H|].
        intros (_ & _ & c & w' & H). discriminate H.
      * intros st cell w' H; injection H as <- <- <-.
        repeat split; try discriminate; try contradiction; auto.
    + split; [|intros st cell w' H; discriminate H].
      intros u; split.
      * intros H. injection H as <-. repeat split. exists c, w1. reflexivity.
      * intros (-> & _). reflexivity.
Qed.

(** X14.  [lmt_get_temperature] on any device, its [temp] pointer null
    or pointing to an object.  Its behaviour is undefined in two cases
    and no other, both after an acquisition that succeeds with a count
    [c]: the table method with [c] below 26 or above 3218 (the read
    outside [lut]), and a null [temp] with a count that converts (the
    store).  No call goes through a null callback, and the local
    [pulses] is never read before [lmt_get_pulse_count] wrote it. *)
Theorem lmt_get_temperature_at_undefined_iff :
  forall (world : Type) (fuel : nat) (dev : option (lmt01_dev world))
         (temp : option (option spec_float)) (type : lmt_conv_t) (w : world)
         (u : undefined_behaviour),
    lmt_get_temperature_at fuel dev temp type w = Undefined u
    <-> exists (c : Z) (w' : world),
          lmt_get_pulse_count fuel dev None w = Ret (LMT_OK, Some c, w')
          /\ (u = OutOfBounds /\ type = CONV_TYPE_LUT
              /\ (0 < c < 26 \/ 3218 < c < 2 ^ 32)
              \/ u = NullPointer /\ temp = None
                 /\ exists t : spec_float,
                     lmt_pulses_to_temperature c type = Ret t).
Proof.
  intros world fuel dev temp type w u.
  unfold lmt_get_temperature_at. rewrite lmt_get_pulse_count_at_object.
  destruct (lmt_get_pulse_count_cases world fuel dev None w)
    as [E | [E | [[w1 E] | (c & w1 & E & Hc)]]]; rewrite E; cbn [bind];
    try (split; [intros H; discriminate H
                | intros (c' & w' & H & _); discriminate H]).
  cbn [negb lmt_status_eqb].
  destruct (lmt_pulses_to_temperature c type) as [t|u'|] eqn:Et.
  - cbn [bind]. destruct temp as [content|]; cbn [store bind].
    + split; [intros H; discriminate H|].
      intros (c' & w' & H & [(_ & -> & Hr) | (_ & H' & _)]);
        [|discriminate H'].
      injection H as <- <-.
      rewrite (lut_out_of_range c) in Et by lia. discriminate Et.
    + split.
      * intros H. injection H as <-. exists c, w1. split; [reflexivity|].
        right. repeat split. exists t. exact Et.
      * intros (c' & w' & H & [(_ & -> & Hr) | (-> & _)]);
          [|reflexivity].
        injection H as <- <-.
        rewrite (lut_out_of_range c) in Et by lia. discriminate Et.
  - cbn [bind].
    destruct (conversion_undefined c type u' Et) as (-> & -> & _ & Hr).
    split.
    + intros H. injection H as <-. exists c, w1. split; [reflexivity|].
      left. repeat split. lia.
    + intros (c' & w' & H & [(-> & _) | (_ & _ & t & Ht)]);
        [reflexivity|].
      injection H as <- <-. rewrite Et in Ht. discriminate Ht.
  - exfalso. exact (conversion_not_spinning c type Et).
Qed.

(** On the bench, a sensor idle in the first window that then sends
    1762 pulses: with a null [pulses] the store is undefined; with a
    null [temp] so is the store of the temperature, by the equation as
    by the table. *)
Lemma lmt_get_pulse_count_at_outcomes_witness :
  lmt_get_pulse_count_at 1 (Some bench_dev) None
    {| calls := []; script := [0; 1762] |}
  = Undefined NullPointer.
Proof.
  apply (proj1 (lmt_get_pulse_count_at_outcomes bench 1 (Some bench_dev) None
                  {| calls := []; script := [0; 1762] |}) NullPointer).
  split; [reflexivity|]. split; [reflexivity|].
  eexists. eexists. reflexivity.
Defined.

Lemma lmt_get_temperature_at_undefined_iff_witness :
  lmt_get_temperature_at 1 (Some bench_dev) None CONV_TYPE_EQU
    {| calls := []; script := [0; 1762] |}
  = Undefined NullPointer
  /\ lmt_get_temperature_at 1 (Some bench_dev) (Some None) CONV_TYPE_LUT
       {| calls := []; script := [0; 3219] |}
     = Undefined OutOfBounds.
Proof.
  split.
  - apply (lmt_get_temperature_at_undefined_iff bench 1 (Some bench_dev) None
             CONV_TYPE_EQU {| calls := []; script := [0; 1762] |} NullPointer).
    eexists. eexists. split; [reflexivity|].
    right. split; [reflexivity|]. split; [reflexivity|].
    eexists. reflexivity.
  - apply (lmt_get_temperature_at_undefined_iff bench 1 (Some bench_dev)
             (Some None) CONV_TYPE_LUT {| calls := []; script := [0; 3219] |}
             OutOfBounds).
    eexists. eexists. split; [reflexivity|].
    left. split; [reflexivity|]. split; [reflexivity|].
    right. split; reflexivity.
Defined.

(** ** Readings on a device with its five callbacks *)

Section Reading.
Variable world : Type.
Variable d : lmt01_dev world.
Variables fstart fstop : Z -> world -> world.
Variable fset : Z -> Z -> world -> world.
Variable fget : Z -> world -> Z * world.
Variable fdelay : Z -> world -> world.
Hypothesis Hstart : start_timer d = Some fstart.
Hypothesis Hstop : stop_timer d = Some fstop.
Hypothesis Hset : set_timer_cnt d = Some fset.
Hypothesis Hget : get_timer_cnt d = Some fget.
Hypothesis Hdelay : delay_ms d = Some fdelay.

Local Abbreviation win := (window fstart fstop fset fget fdelay).
Local Abbreviation probes := (after_probes fstart fstop fset fget fdelay).

(** X15.  A temperature reading end to end.  While every window of 10 ms
    counts pulses, [lmt_get_temperature] does not return.  Once a
    window counts none, the count [c] of the one window of 104 ms that
    follows decides: none gives [LMT_E_DEV_NOT_FOUND] with [*temp]
    untouched, any other is converted by the chosen method and stored
    in [*temp] with [LMT_OK]. *)
Theorem lmt_get_temperature_reading :
  forall (temp : option spec_float) (type : lmt_conv_t) (w : world),
    let t := timer d in
    let probe (k : nat) := fst (win t 10 (probes t k w)) in
    ((forall k : nat, probe k <> 0) ->
     forall fuel : nat,
       lmt_get_temperature fuel (Some d) temp type w = Spinning)
    /\ (forall n : nat,
          (forall k : nat, (k < n)%nat -> probe k <> 0) ->
          probe n = 0 ->
          forall fuel : nat,
            (n < fuel)%nat ->
            let m := win t 104 (probes t (S n) w) in
            lmt_get_temperature fuel (Some d) temp type w
            = if fst m =? 0 then Ret (LMT_E_DEV_NOT_FOUND, temp, snd m)
              else (v <- lmt_pulses_to_temperature (fst m) type ;;
                    Ret (LMT_OK, Some v, snd m))).
Proof.
  intros temp type w t probe. split.
  - intros H fuel. unfold lmt_get_temperature, lmt_get_pulse_count.
    rewrite (null_ptr_check_complete world d _ _ _ _ _
               Hstart Hstop Hset Hget Hdelay).
    cbn [negb lmt_status_eqb callee bind].
    rewrite (drain_busy world d _ _ _ _ _ Hstart Hstop Hset Hget Hdelay fuel w).
    + reflexivity.
    + intros k _. apply H.
  - intros n Hbusy Hidle fuel Hlt m.
    unfold lmt_get_temperature, lmt_get_pulse_count.
    rewrite (null_ptr_check_complete world d _ _ _ _ _
               Hstart Hstop Hset Hget Hdelay).
    cbn [negb lmt_status_eqb callee bind].
    rewrite (drain_idle world d _ _ _ _ _ Hstart Hstop Hset Hget Hdelay
               n fuel w Hbusy Hidle Hlt).
    cbn [bind].
    rewrite (count_pulses_ms_complete world d _ _ _ _ _
               Hstart Hstop Hset Hget Hdelay).
    cbn [bind]. fold t. fold m.
    destruct m as [c w']. cbn [fst snd].
    destruct (c =? 0); reflexivity.
Qed.

(** *** Time spent waiting *)

Variable elapsed : world -> Z.
Hypothesis elapsed_start : forall t w, elapsed (fstart t w) = elapsed w.
Hypothesis elapsed_stop : forall t w, elapsed (fstop t w) = elapsed w.
Hypothesis elapsed_set : forall t c w, elapsed (fset t c w) = elapsed w.
Hypothesis elapsed_get : forall t w, elapsed (snd (fget t w)) = elapsed w.
Hypothesis elapsed_delay :
  forall ms w, elapsed (fdelay ms w) = elapsed w + ms.

Lemma window_elapsed :
  forall (t period : Z) (w : world),
    elapsed (snd (win t period w)) = elapsed w + period.
Proof.
  intros t period w. unfold window.
  pose proof (elapsed_get t (fstop t (fdelay period
                (fstart t (fset t 0 (fstop t w)))))) as Hg.
  destruct (fget _ _) as [c w']. cbn [snd] in *.
  rewrite Hg, elapsed_stop, elapsed_delay, elapsed_start, elapsed_set,
    elapsed_stop.
  reflexivity.
Qed.

Lemma after_probes_elapsed :
  forall (t : Z) (n : nat) (w : world),
    elapsed (probes t n w) = elapsed w + 10 * Z.of_nat n.
Proof.
  intros t n. induction n as [|n IH]; intros w.
  - simpl. lia.
  - cbn [after_probes]. rewrite IH, window_elapsed. lia.
Qed.

(** X16.  The delay the driver asks for.  Let [elapsed] be a clock of the
    hardware that [delay_ms] advances by its argument and that the
    timer callbacks leave alone.  Then [lmt_init] takes 60 ms, and a
    call of [lmt_get_pulse_count] that sees [n] windows with pulses
    before the first one without takes [10 * (n + 1) + 104] ms,
    whatever status it returns. *)
Theorem driver_waiting_time :
  forall (pulses : option Z) (w : world),
    let t := timer d in
    let probe (k : nat) := fst (win t 10 (probes t k w)) in
    (exists (st : lmt_status_t) (w' : world),
        lmt_init (Some d) w = Ret (st, w')
        /\ elapsed w' = elapsed w + 60)
    /\ (forall n : nat,
          (forall k : nat, (k < n)%nat -> probe k <> 0) ->
          probe n = 0 ->
          forall fuel : nat,
            (n < fuel)%nat ->
            exists (st : lmt_status_t) (cell : option Z) (w' : world),
              lmt_get_pulse_count fuel (Some d) pulses w = Ret (st, cell, w')
              /\ elapsed w' = elapsed w + 10 * (Z.of_nat n + 1) + 104).
Proof.
  intros pulses w t probe. split.
  - unfold lmt_init.
    rewrite (null_ptr_check_complete world d _ _ _ _ _
               Hstart Hstop Hset Hget Hdelay).
    cbn [negb lmt_status_eqb callee bind].
    rewrite (count_pulses_ms_complete world d _ _ _ _ _
               Hstart Hstop Hset Hget Hdelay).
    cbn [bind]. fold t.
    pose proof (window_elapsed t 60 w) as He.
    destruct (win t 60 w) as [c w']. cbn [snd] in He.
    destruct (c =? 0); eexists; eexists; (split; [reflexivity | exact He]).
  - intros n Hbusy Hidle fuel Hlt.
    unfold lmt_get_pulse_count.
    rewrite (null_ptr_check_complete world d _ _ _ _ _
               Hstart Hstop Hset Hget Hdelay).
    cbn [negb lmt_status_eqb callee bind].
    rewrite (drain_idle world d _ _ _ _ _ Hstart Hstop Hset Hget Hdelay
               n fuel w Hbusy Hidle Hlt).
    cbn [bind].
    rewrite (count_pulses_ms_complete world d _ _ _ _ _
               Hstart Hstop Hset Hget Hdelay).
    cbn [bind]. fold t.
    pose proof (window_elapsed t 104 (probes t (S n) w)) as He.
    rewrite after_probes_elapsed in He.
    destruct (win t 104 (probes t (S n) w)) as [c w'].
    cbn [snd] in He.
    destruct (c =? 0); eexists; eexists; eexists;
      (split; [reflexivity | lia]).
Qed.

End Reading.

(** On the bench: the sensor that never idles, and a sensor seen
    pulsing, then idle, then sending 1762 pulses, read by the table. *)
Lemma lmt_get_temperature_reading_witness :
  (forall fuel : nat,
      lmt_get_temperature fuel (Some busy_dev) None CONV_TYPE_EQU tt = Spinning)
  /\ lmt_get_temperature 2 (Some bench_dev) None CONV_TYPE_LUT
       {| calls := []; script := [3; 0; 1762] |}
     = Ret (LMT_OK, Some (Single.of_Z 60),
            {| calls := [CallGetCnt 1; CallStop 1; CallDelay 104; CallStart 1;
                         CallSetCnt 1 0; CallStop 1;
                         CallGetCnt 1; CallStop 1; CallDelay 10; CallStart 1;
                         CallSetCnt 1 0; CallStop 1;
                         CallGetCnt 1; CallStop 1; CallDelay 10; CallStart 1;
                         CallSetCnt 1 0; CallStop 1];
               script := [] |}).
Proof.
  split.
  - apply (proj1 (lmt_get_temperature_reading unit busy_dev _ _ _ _ _
                    eq_refl eq_refl eq_refl eq_refl eq_refl
                    None CONV_TYPE_EQU tt)).
    intros k. discriminate.
  - apply (proj2 (lmt_get_temperature_reading bench bench_dev _ _ _ _ _
                    eq_refl eq_refl eq_refl eq_refl eq_refl
                    None CONV_TYPE_LUT
                    {| calls := []; script := [3; 0; 1762] |}) 1%nat).
    + intros [|k] Hk; [discriminate | lia].
    + reflexivity.
    + apply le_n.
Defined.

Lemma bench_elapsed_record :
  forall (c : timer_call) (w : bench),
    bench_elapsed (record c w)
    = match c with
      | CallDelay ms => bench_elapsed w + ms
      | _ => bench_elapsed w
      end.
Proof.
  intros c w. unfold bench_elapsed. destruct c; simpl; lia.
Qed.

Lemma bench_elapsed_get :
  forall (t : Z) (w : bench),
    bench_elapsed (snd (bench_get t w)) = bench_elapsed w.
Proof.
  intros t w. unfold bench_get. destruct (script w); reflexivity.
Qed.

(** On the bench, whose clock is the sum of the delays asked for:
    60 ms for [lmt_init], and 10 + 10 + 104 ms for a reading that finds
    the sensor pulsing in the first window and idle in the second. *)
Lemma driver_waiting_time_witness :
  (exists (st : lmt_status_t) (w' : bench),
      lmt_init (Some bench_dev) {| calls := []; script := [3; 0; 1762] |}
      = Ret (st, w')
      /\ bench_elapsed w'
         = bench_elapsed {| calls := []; script := [3; 0; 1762] |} + 60)
  /\ exists (st : lmt_status_t) (cell : option Z) (w' : bench),
      lmt_get_pulse_count 2 (Some bench_dev) None
        {| calls := []; script := [3; 0; 1762] |}
      = Ret (st, cell, w')
      /\ bench_elapsed w'
         = bench_elapsed {| calls := []; script := [3; 0; 1762] |}
           + 10 * (Z.of_nat 1 + 1) + 104.
Proof.
  pose proof (driver_waiting_time bench bench_dev _ _ _ _ _
                eq_refl eq_refl eq_refl eq_refl eq_refl bench_elapsed
                (fun t w => bench_elapsed_record (CallStart t) w)
                (fun t w => bench_elapsed_record (CallStop t) w)
                (fun t c w => bench_elapsed_record (CallSetCnt t c) w)
                bench_elapsed_get
                (fun ms w => bench_elapsed_record (CallDelay ms) w)
                None {| calls := []; script := [3; 0; 1762] |}) as [Hinit Hread].
  split; [exact Hinit|].
  apply (Hread 1%nat).
  - intros [|k] Hk; [discriminate | lia].
  - reflexivity.
  - apply le_n.
Defined.
